(** * BookStore: the browser-side script [bookapp/static/js/main.js]

    A shallow embedding of the script and the proofs of its contract.

    The script is event driven: every handler runs to completion before the
    next event is taken.  A handler is embedded as a function from the state
    it touches to a completion (normal or thrown) and the state it leaves;
    state changes made before an exception is thrown are kept, as in
    JavaScript.  A promise reaction is a handler of its own, run when the
    request it waits for comes back.

    What the page must provide is taken as given: the navbar element exists,
    the toast widget library is loaded, and a reply body that parses has the
    fields of its endpoint.  What may be missing on a real page is kept: a
    heart without icon, a heart without book code, a cookie that does not
    decode. *)

From Stdlib Require Import NArith QArith Bool Ascii.
From stdpp Require Import base option list sets strings.

(** ** Completions and the handler monad *)

Inductive exn : Type :=
| TypeError    (* a property is read from null *)
| URIError     (* decodeURIComponent on a malformed escape *)
| SyntaxError  (* a malformed selector or JSON text *)
| Error (message : string).

Inductive completion (A : Type) : Type :=
| Normal (a : A)
| Throw (e : exn).
Arguments Normal {A} a.
Arguments Throw {A} e.

Definition js (S A : Type) : Type := S → completion A * S.

Definition js_ret {S A} (a : A) : js S A := λ s, (Normal a, s).

Definition js_bind {S A B} (m : js S A) (k : A → js S B) : js S B :=
  λ s, match m s with
       | (Normal a, s') => k a s'
       | (Throw e, s') => (Throw e, s')
       end.

Definition js_throw {S A} (e : exn) : js S A := λ s, (Throw e, s).

(** [try { m } catch (error) { h }] *)
Definition js_catch {S A} (m : js S A) (h : exn → js S A) : js S A :=
  λ s, match m s with
       | (Normal a, s') => (Normal a, s')
       | (Throw e, s') => h e s'
       end.

Definition js_get {S} : js S S := λ s, (Normal s, s).
Definition js_modify {S} (f : S → S) : js S unit := λ s, (Normal tt, f s).

#[global] Instance js_mret {S} : MRet (js S) := λ A, @js_ret S A.
#[global] Instance js_mbind {S} : MBind (js S) := λ A B k m, @js_bind S A B m k.

(** ** Class lists (DOMTokenList) *)

Module classList.

Definition contains (c : string) (cl : list string) : bool :=
  bool_decide (c ∈ cl).

(** [add] appends the token when it is not there yet. *)
Definition add (c : string) (cl : list string) : list string :=
  if contains c cl then cl else cl ++ [c].

Definition remove (c : string) (cl : list string) : list string :=
  filter (λ x, x ≠ c) cl.

End classList.

(** ** Heart elements

    A heart is an element matched by [.wishlist-heart].  The script reads its
    class list, its [data-book-isbn] attribute ([dataset.bookIsbn], absent
    when the attribute is missing) and the class list of the first [<i>]
    element below it ([querySelector('i')], [None] when there is none), and it
    adds click listeners to it.  Hearts are taken not to be nested in one
    another, so that no two hearts share an icon. *)

Record heart : Type := Heart {
  heart_classes : list string;
  heart_isbn : option string;
  heart_icon : option (list string);
  heart_listeners : nat
}.

Definition heart_classList (f : list string → list string) : js heart unit :=
  js_modify (λ h, Heart (f (heart_classes h)) (heart_isbn h)
                        (heart_icon h) (heart_listeners h)).

(** [heartIcon.classList.…]: reading [classList] of [null] is a TypeError. *)
Definition heartIcon_classList (f : list string → list string) : js heart unit :=
  λ h, match heart_icon h with
       | Some ic => (Normal tt, Heart (heart_classes h) (heart_isbn h)
                                      (Some (f ic)) (heart_listeners h))
       | None => (Throw TypeError, h)
       end.

Definition updateWishlistHeart (inWishlist : bool) : js heart unit :=
  if inWishlist then
    heart_classList (classList.add "active") ;;
    heartIcon_classList (classList.remove "text-muted") ;;
    heartIcon_classList (classList.add "text-danger")
  else
    heart_classList (classList.remove "active") ;;
    heartIcon_classList (classList.remove "text-danger") ;;
    heartIcon_classList (classList.add "text-muted").

(** What the script and the style sheet read back from a heart. *)
Definition is_active (h : heart) : bool :=
  classList.contains "active" (heart_classes h).

Definition icon_has (c : string) (h : heart) : bool :=
  match heart_icon h with
  | Some ic => classList.contains c ic
  | None => false
  end.

(** The class state of a heart: the three classes the script manages. *)
Definition class_state (h : heart) : bool * bool * bool :=
  (is_active h, icon_has "text-muted" h, icon_has "text-danger" h).

Definition heart_invariant (h : heart) : Prop :=
  (is_active h = true ↔ icon_has "text-danger" h = true) ∧
  ¬ (icon_has "text-muted" h = true ∧ icon_has "text-danger" h = true).

(** The heart shows membership [b]. *)
Definition heart_shows (b : bool) (h : heart) : Prop :=
  class_state h = (b, negb b, b).

(** Successive calls on the same heart. *)
Fixpoint updateWishlistHeart_seq (bs : list bool) : js heart unit :=
  match bs with
  | [] => mret tt
  | b :: bs' => updateWishlistHeart b ;; updateWishlistHeart_seq bs'
  end.

(** ** JavaScript strings

    The cookie reader cuts strings up and decodes them, so there a string is
    the list of its UTF-16 code units.  Class names, book codes and messages
    are only compared and concatenated; they stay [string]s. *)

Definition jsstring : Type := list N.

(** A literal of ASCII characters. *)
Definition str (s : string) : jsstring :=
  (λ a, N_of_ascii a) <$> String.list_ascii_of_string s.

(** [WhiteSpace] and [LineTerminator] of ECMAScript, what [trim] strips. *)
Definition isWhiteSpace (c : N) : bool :=
  bool_decide (c ∈ [9; 10; 11; 12; 13; 32; 160; 5760; 8232; 8233; 8239; 8287;
                    12288; 65279]%N)
  || ((8192 <=? c) && (c <=? 8202))%N.

Fixpoint trimStart (s : jsstring) : jsstring :=
  match s with
  | c :: s' => if isWhiteSpace c then trimStart s' else s
  | [] => []
  end.

Definition trimEnd (s : jsstring) : jsstring :=
  reverse (trimStart (reverse s)).

Definition trim (s : jsstring) : jsstring := trimEnd (trimStart s).

(** [s.split(sep)] for a separator of one code unit. *)
Fixpoint js_split (sep : N) (s : jsstring) : list jsstring :=
  match s with
  | [] => [[]]
  | c :: s' =>
      if (c =? sep)%N then [] :: js_split sep s'
      else match js_split sep s' with
           | piece :: pieces => (c :: piece) :: pieces
           | [] => [[c]]
           end
  end.

(** [s.substring(0, n)] is [take n s] and [s.substring(n)] is [drop n s]. *)

(** *** decodeURIComponent

    The built-in, after ECMAScript's [Decode] with an empty reserved set:
    every [%XX] is an octet, octets below 128 are characters, the others
    must form the UTF-8 encoding of a code point, which is put back as
    UTF-16.  Anything else is a URIError. *)

Definition hex_digit (c : N) : option N :=
  if ((48 <=? c) && (c <=? 57))%N then Some (c - 48)%N
  else if ((65 <=? c) && (c <=? 70))%N then Some (c - 55)%N
  else if ((97 <=? c) && (c <=? 102))%N then Some (c - 87)%N
  else None.

Inductive uri_token : Type :=
| Lit (c : N)
| Octet (b : N).

Fixpoint uri_tokens (s : jsstring) : option (list uri_token) :=
  match s with
  | [] => Some []
  | c :: s' =>
      if (c =? 37)%N then
        match s' with
        | h1 :: h2 :: s'' =>
            match hex_digit h1, hex_digit h2 with
            | Some a, Some b => cons (Octet (16 * a + b)%N) <$> uri_tokens s''
            | _, _ => None
            end
        | _ => None
        end
      else cons (Lit c) <$> uri_tokens s'
  end.

Definition continuation (b : N) : bool := ((128 <=? b) && (b <? 192))%N.

(** The code units of code point [v]. *)
Definition utf16 (v : N) : jsstring :=
  if (v <? 65536)%N then [v]
  else [(55296 + (v - 65536) / 1024)%N; (56320 + (v - 65536) mod 1024)%N].

Fixpoint utf8_decode (ts : list uri_token) : option jsstring :=
  match ts with
  | [] => Some []
  | Lit c :: ts' => cons c <$> utf8_decode ts'
  | Octet b :: ts' =>
      if (b <? 128)%N then cons b <$> utf8_decode ts'
      else if (b <? 192)%N then None
      else if (b <? 224)%N then
        match ts' with
        | Octet b1 :: ts'' =>
            let v := ((b - 192) * 64 + (b1 - 128))%N in
            if continuation b1 && (128 <=? v)%N
            then app (utf16 v) <$> utf8_decode ts''
            else None
        | _ => None
        end
      else if (b <? 240)%N then
        match ts' with
        | Octet b1 :: Octet b2 :: ts'' =>
            let v := ((b - 224) * 4096 + (b1 - 128) * 64 + (b2 - 128))%N in
            if continuation b1 && continuation b2 && (2048 <=? v)%N
               && negb ((55296 <=? v) && (v <=? 57343))%N
            then app (utf16 v) <$> utf8_decode ts''
            else None
        | _ => None
        end
      else if (b <? 248)%N then
        match ts' with
        | Octet b1 :: Octet b2 :: Octet b3 :: ts'' =>
            let v := ((b - 240) * 262144 + (b1 - 128) * 4096
                      + (b2 - 128) * 64 + (b3 - 128))%N in
            if continuation b1 && continuation b2 && continuation b3
               && (65536 <=? v)%N && (v <=? 1114111)%N
            then app (utf16 v) <$> utf8_decode ts''
            else None
        | _ => None
        end
      else None
  end.

Definition decodeURIComponent (s : jsstring) : completion jsstring :=
  match uri_tokens s ≫= utf8_decode with
  | Some d => Normal d
  | None => Throw URIError
  end.

(** *** getCookie

    [null] is [None]. *)

(** The [for] loop over the rest of [cookies]; [break] ends it. *)
Fixpoint getCookie_loop (name : jsstring) (cookies : list jsstring)
  : completion (option jsstring) :=
  match cookies with
  | [] => Normal None
  | c :: cookies' =>
      let cookie := trim c in
      if bool_decide (take (length name + 1) cookie = name ++ str "=") then
        match decodeURIComponent (drop (length name + 1) cookie) with
        | Normal v => Normal (Some v)
        | Throw e => Throw e
        end
      else getCookie_loop name cookies'
  end.

Definition getCookie (document_cookie name : jsstring)
  : completion (option jsstring) :=
  if bool_decide (document_cookie ≠ []) then
    getCookie_loop name (js_split 59 document_cookie)
  else Normal None.

(** The cookie string a browser hands out for a list of cookies: the
    [name=value] pairs in order, joined by a semicolon and a space. *)
Fixpoint cookie_string (jar : list (jsstring * jsstring)) : jsstring :=
  match jar with
  | [] => []
  | [(n, v)] => n ++ str "=" ++ v
  | (n, v) :: jar' => n ++ str "=" ++ v ++ str "; " ++ cookie_string jar'
  end.

(** The first cookie of the jar with the given name. *)
Fixpoint jar_lookup (name : jsstring) (jar : list (jsstring * jsstring))
  : option jsstring :=
  match jar with
  | [] => None
  | (n, v) :: jar' => if bool_decide (n = name) then Some v else jar_lookup name jar'
  end.

(** Names and values that a cookie string can hold: no semicolon in
    either, and in a name no equals sign and no white space at its start. *)
Definition cookie_wf (nv : jsstring * jsstring) : Prop :=
  (59%N ∉ nv.1) ∧ (61%N ∉ nv.1) ∧ (59%N ∉ nv.2) ∧ trimStart nv.1 = nv.1.

(** ** Toasts *)

(** What [getToastIcon] returns: a class name of the table, or, for a
    [type] that names a property every object inherits, that property of
    [Object.prototype] (a function or an object, never the default). *)
Inductive icon : Type :=
| IconClass (name : string)
| InheritedProperty (name : string).
Coercion IconClass : string >-> icon.

(** An element that [insertAdjacentHTML] put into the container.
    [toast_id] is [Some t] when its id is ['toast-' + t], [None] for any
    other id or none; [toast_message] is the text it shows;
    [toast_shown] is the delay with which the widget was started on it, if
    it was. *)
Record toast : Type := Toast {
  toast_id : option N;
  toast_type : string;
  toast_icon : icon;
  toast_message : string;
  toast_shown : option N
}.

(** [icons[type] || 'fa-bell']: the lookup goes through the object's own
    five keys and then through what it inherits from [Object.prototype];
    every inherited value is truthy, so the default is not taken there. *)
Definition getToastIcon (type : string) : icon :=
  match type with
  | "success" => IconClass "fa-check-circle"
  | "error" => IconClass "fa-exclamation-circle"
  | "danger" => IconClass "fa-exclamation-circle"
  | "warning" => IconClass "fa-exclamation-triangle"
  | "info" => IconClass "fa-info-circle"
  | "constructor" | "toString" | "toLocaleString" | "valueOf"
  | "hasOwnProperty" | "isPrototypeOf" | "propertyIsEnumerable"
  | "__proto__" | "__defineGetter__" | "__defineSetter__"
  | "__lookupGetter__" | "__lookupSetter__" => InheritedProperty type
  | _ => IconClass "fa-bell"
  end.

(** The message is put into the HTML of the toast as it is, and the HTML
    parser reads it.  [message_text] is the text the parser makes of a
    message without markup: characters stand for themselves and the
    references [&amp;] [&lt;] [&gt;] [&quot;] for the character they name.
    A [<], any other [&], a NUL or a carriage return is left to the parser
    ([None]). *)
Fixpoint message_text (message : string) : option string :=
  match message with
  | EmptyString => Some EmptyString
  | String "&" (String "a" (String "m" (String "p" (String ";" rest)))) =>
      String "&" <$> message_text rest
  | String "&" (String "l" (String "t" (String ";" rest))) =>
      String "<" <$> message_text rest
  | String "&" (String "g" (String "t" (String ";" rest))) =>
      String ">" <$> message_text rest
  | String "&" (String "q" (String "u" (String "o" (String "t"
      (String ";" rest))))) =>
      String (ascii_of_N 34) <$> message_text rest
  | String c rest =>
      if bool_decide (N_of_ascii c ∈ [60; 38; 0; 13]%N) then None
      else String c <$> message_text rest
  end.

(** A [type] that stands for itself inside the quoted [class] attribute
    and has its icon in the table. *)
Definition plain_type (type : string) : bool :=
  forallb (λ a, negb (bool_decide (N_of_ascii a ∈ [34; 38; 0; 13]%N)))
          (String.list_ascii_of_string type)
  && match getToastIcon type with
     | IconClass _ => true
     | InheritedProperty _ => false
     end.

(** [new bootstrap.Toast(document.getElementById(toastId), {delay}).show()]:
    the first element that carries the id is the one shown. *)
Fixpoint show_by_id (id delay : N) (ts : list toast) : list toast :=
  match ts with
  | [] => []
  | t :: ts' =>
      if bool_decide (toast_id t = Some id)
      then Toast (toast_id t) (toast_type t) (toast_icon t) (toast_message t)
                 (Some delay) :: ts'
      else t :: show_by_id id delay ts'
  end.

(** ** Requests *)

Record request : Type := Request {
  req_url : string;
  req_method : string;
  req_headers : list (string * string);
  req_csrf : option jsstring;      (* the header X-CSRFToken *)
  req_body : option (list string)  (* the JSON body {isbns: [...]} *)
}.

(** How a [fetch] comes back: it rejects, or it gives a response whose
    [ok] flag is read and whose body [response.json()] parses ([Some]) or
    rejects ([None]).  A body that parses has the fields of the endpoint's
    contract. *)
Inductive fetch_outcome (D : Type) : Type :=
| NetworkError
| Response (ok : bool) (body : option D).
Arguments NetworkError {D}.
Arguments Response {D} ok body.

Record status : Type := Status {
  status_isbn : string;
  status_in_wishlist : bool
}.

Record check_data : Type := CheckData {
  check_success : bool;
  wishlist_status : list status
}.

Record toggle_data : Type := ToggleData {
  toggle_success : bool;
  toggle_in_wishlist : bool;
  toggle_message : string
}.

(** ** The page *)

Inductive observation : Type :=
| SyncResolved                (* the promise of checkWishlistStates fulfils *)
| ListenerAdded (i : nat).    (* addEventListener('click') on heart [i] *)

Inductive console_entry : Type :=
| ErrorCheckingWishlist (e : exn)
| ErrorToggle (e : exn).

(** The part of the document and of its surroundings that the wishlist code
    reads and writes.  Hearts are in document order and are referred to by
    their index; the script never adds or removes one. *)
Record page : Type := Page {
  page_hearts : list heart;
  page_toasts : option (list toast);  (* children of .toast-container *)
  page_cookie : jsstring;             (* document.cookie *)
  page_requests : list request;       (* the fetch calls made, oldest first *)
  page_console : list console_entry;
  page_log : list observation
}.

Definition with_toasts (f : option (list toast) → option (list toast))
  : js page unit :=
  js_modify (λ p, Page (page_hearts p) (f (page_toasts p)) (page_cookie p)
                       (page_requests p) (page_console p) (page_log p)).

Definition fetch (r : request) : js page unit :=
  js_modify (λ p, Page (page_hearts p) (page_toasts p) (page_cookie p)
                       (page_requests p ++ [r]) (page_console p) (page_log p)).

Definition console_error (c : console_entry) : js page unit :=
  js_modify (λ p, Page (page_hearts p) (page_toasts p) (page_cookie p)
                       (page_requests p) (page_console p ++ [c]) (page_log p)).

Definition observe (o : observation) : js page unit :=
  js_modify (λ p, Page (page_hearts p) (page_toasts p) (page_cookie p)
                       (page_requests p) (page_console p) (page_log p ++ [o])).

(** A pure computation that may throw, run without touching the state. *)
Definition js_lift {S A} (c : completion A) : js S A := λ s, (c, s).

(** Run [m] on heart [i].  The script only ever holds references to hearts
    of the document; an index outside it stands for [null]. *)
Definition on_heart {A} (i : nat) (m : js heart A) : js page A :=
  λ p, match page_hearts p !! i with
       | Some h =>
           let '(r, h') := m h in
           (r, Page (<[i := h']> (page_hearts p)) (page_toasts p)
                    (page_cookie p) (page_requests p) (page_console p)
                    (page_log p))
       | None => (Throw TypeError, p)
       end.

(** ** What only the browser can read

    Two texts that the script builds are read by parsers of the browser: the
    HTML of a toast and the selector of a heart.  Where the text is plain
    the embedding reads it itself.  Where it is not, what the parser makes
    of it is taken from the two functions below, about which nothing is
    assumed: [parsed_nodes type message now] are the elements the HTML
    parser builds for a toast whose type or message is not plain, in
    document order; [selected_update isbn inWishlist hearts] is what
    [querySelector] and the update that follows do for a code that is not
    [css_plain]: how they complete, and the class lists of the hearts and
    of their icons afterwards (such a selector can match any element, and
    the update can only change classes). *)

(** Stand-ins for pages on which the browser is never asked. *)
Definition no_nodes : string → string → N → list toast := λ _ _ _, [].

Definition no_update
  : string → bool → list heart
    → completion unit * list (list string * list string) :=
  λ _ _ _, (Normal tt, []).

(** The hearts with the class lists [cls], position by position: the
    container's classes and, where there is an icon, the icon's. *)
Fixpoint restyle (cls : list (list string * list string)) (hs : list heart)
  : list heart :=
  match cls, hs with
  | c :: cls', h :: hs' =>
      Heart c.1 (heart_isbn h)
            (match heart_icon h with Some _ => Some c.2 | None => None end)
            (heart_listeners h) :: restyle cls' hs'
  | _, _ => hs
  end.

Section Browser.

#[local] Set Default Proof Using "Type".

Variable parsed_nodes : string → string → N → list toast.

Variable selected_update
  : string → bool → list heart
    → completion unit * list (list string * list string).

Definition createToastContainer : js page unit :=
  with_toasts (λ _, Some []).

(** The elements that [insertAdjacentHTML] builds from [toastHtml]: for a
    plain type and a message without markup, one toast with the id, the
    type, its icon and the text of the message. *)
Definition toastHtml_nodes (message type : string) (now : N) : list toast :=
  match message_text message with
  | Some text =>
      if plain_type type
      then [Toast (Some now) type (getToastIcon type) text None]
      else parsed_nodes type message now
  | None => parsed_nodes type message now
  end.

(** [showToast(message, type, duration)] when [Date.now()] reads [now].
    Every caller leaves [duration] at its default of 5000.  When no element
    carries the id, [toastElement] is [null] and
    [toastElement.addEventListener] is a TypeError. *)
Definition showToast (message type : string) (duration now : N)
  : js page unit :=
  p ← js_get;
  match page_toasts p with
  | Some _ => mret tt
  | None => createToastContainer
  end ;;
  with_toasts (fmap (λ ts, ts ++ toastHtml_nodes message type now)) ;;
  p ← js_get;
  if bool_decide (Exists (λ t, toast_id t = Some now)
                         (default [] (page_toasts p)))
  then with_toasts (fmap (show_by_id now duration))
  else js_throw TypeError.

(** ** The wishlist controller *)

(** The promise [checkWishlistStates] returns: already fulfilled, or waiting
    for the reply to its request. *)
Inductive promise : Type :=
| Fulfilled
| Pending.

(** [dataset.bookIsbn] of every heart, without the falsy ones ([undefined]
    and the empty string). *)
Definition bookIsbns (p : page) : list string :=
  omap (λ h, match heart_isbn h with
             | Some isbn => if bool_decide (isbn = "") then None else Some isbn
             | None => None
             end) (page_hearts p).

(** A book code that can stand between the double quotes of the attribute
    selector and denote itself: no double quote, no backslash, no line
    break, no NUL. *)
Definition css_plain (isbn : string) : bool :=
  forallb (λ a, negb (bool_decide (N_of_ascii a ∈ [34; 92; 10; 12; 13; 0]%N)))
          (String.list_ascii_of_string isbn).

(** [document.querySelector(`.wishlist-heart[data-book-isbn="${isbn}"]`)]
    for a code that is [css_plain]: the first heart in document order whose
    attribute is [isbn]. *)
Definition querySelector_heart (isbn : string) : js page (option nat) :=
  λ p, (Normal (fst <$> list_find (λ h, heart_isbn h = Some isbn)
                                   (page_hearts p)), p).

(** The lookup and the update for a code that is not [css_plain], as the
    browser decides them. *)
Definition selected_heart_update (isbn : string) (inWishlist : bool)
  : js page unit :=
  λ p, let '(r, cls) := selected_update isbn inWishlist (page_hearts p) in
       (r, Page (restyle cls (page_hearts p)) (page_toasts p) (page_cookie p)
                (page_requests p) (page_console p) (page_log p)).

(** [data.wishlist_status.forEach(status => { ... })] *)
Fixpoint forEach_status (sts : list status) : js page unit :=
  match sts with
  | [] => mret tt
  | st :: sts' =>
      (if css_plain (status_isbn st) then
         heart ← querySelector_heart (status_isbn st);
         match heart with
         | Some i => on_heart i (updateWishlistHeart (status_in_wishlist st))
         | None => mret tt
         end
       else selected_heart_update (status_isbn st) (status_in_wishlist st)) ;;
      forEach_status sts'
  end.

(** [checkWishlistStates], up to the point where it returns its promise. *)
Definition checkWishlistStates : js page promise :=
  p ← js_get;
  if bool_decide (length (bookIsbns p) = 0) then
    observe SyncResolved ;; mret Fulfilled
  else
    csrftoken ← js_lift (getCookie (page_cookie p) (str "csrftoken"));
    fetch (Request "/wishlist/check-status/" "POST"
                   [("Content-Type", "application/json")]
                   csrftoken (Some (bookIsbns p))) ;;
    mret Pending.

(** The reactions chained on the request, run when it comes back:
    [.then(response => response.json()).then(data => ...).catch(...)].
    When they are done the promise of [checkWishlistStates] fulfils. *)
Definition checkWishlistStates_reply (o : fetch_outcome check_data)
  : js page unit :=
  js_catch
    (data ← match o with
            | NetworkError => js_throw TypeError
            | Response _ None => js_throw SyntaxError
            | Response _ (Some data) => mret data
            end;
     if check_success data then forEach_status (wishlist_status data)
     else mret tt)
    (λ error, console_error (ErrorCheckingWishlist error)) ;;
  observe SyncResolved.

Definition initializeWishlistHeart (i : nat) : js page unit :=
  on_heart i (js_modify (λ h, Heart (heart_classes h) (heart_isbn h)
                                    (heart_icon h) (S (heart_listeners h)))) ;;
  observe (ListenerAdded i).

(** [wishlistHearts.forEach(heart => initializeWishlistHeart(heart))], the
    function given to [then]. *)
Fixpoint forEach_heart (wishlistHearts : list nat) : js page unit :=
  match wishlistHearts with
  | [] => mret tt
  | heart :: rest => initializeWishlistHeart heart ;; forEach_heart rest
  end.

(** [initializeWishlistHearts], up to the point where it has called [then]:
    the promise it waits on, and the [wishlistHearts] its callback holds. *)
Definition initializeWishlistHearts : js page (promise * list nat) :=
  p ← js_get;
  let wishlistHearts := seq 0 (length (page_hearts p)) in
  sync ← checkWishlistStates;
  mret (sync, wishlistHearts).

(** [toggleWishlist], up to the [fetch].  [bookIsbn] is [undefined] for a
    heart without the attribute. *)
Definition toggleWishlist (bookIsbn : option string) : js page unit :=
  p ← js_get;
  csrftoken ← js_lift (getCookie (page_cookie p) (str "csrftoken"));
  fetch (Request ("/wishlist/toggle-ajax/" +:+ default "undefined" bookIsbn
                  +:+ "/") "POST"
                 [("X-Requested-With", "XMLHttpRequest")]
                 csrftoken None).

(** The click listener of heart [this]. *)
Definition click_listener (this : nat) : js page unit :=
  heart ← on_heart this js_get;
  toggleWishlist (heart_isbn heart).

(** [!heartElement.classList.contains('active')] *)
Definition not_active (i : nat) : js page bool :=
  on_heart i (h ← js_get; mret (negb (is_active h))).

(** The reactions chained on the toggle request of heart [heartElement].
    [now] is what [Date.now()] reads in the [then] part, [now'] what it
    reads in the [catch] part. *)
Definition toggleWishlist_reply (heartElement : nat)
    (o : fetch_outcome toggle_data) (now now' : N) : js page unit :=
  js_catch
    (data ← match o with
            | NetworkError => js_throw TypeError
            | Response ok body =>
                if negb ok then js_throw (Error "Network response was not ok")
                else match body with
                     | Some data => mret data
                     | None => js_throw SyntaxError
                     end
            end;
     if toggle_success data then
       on_heart heartElement (updateWishlistHeart (toggle_in_wishlist data)) ;;
       showToast (toggle_message data)
                 (if toggle_in_wishlist data then "success" else "info")
                 5000 now
     else
       showToast (toggle_message data) "warning" 5000 now ;;
       b ← not_active heartElement;
       on_heart heartElement (updateWishlistHeart b))
    (λ error,
       console_error (ErrorToggle error) ;;
       showToast "Error updating wishlist" "danger" 5000 now' ;;
       b ← not_active heartElement;
       on_heart heartElement (updateWishlistHeart b)).

(** ** The navbar

    Offsets are rationals: the handler only compares them, and every finite
    double is one. *)

Record navbar : Type := Navbar {
  navbar_classes : list string;
  offsetHeight : Q
}.

(** The variables the scroll listener closes over. *)
Record scroll_closure : Type := ScrollClosure {
  lastScrollTop : Q;
  navbarHeight : Q
}.

Definition Qgtb (x y : Q) : bool := negb (Qle_bool x y).

(** [window.pageYOffset || document.documentElement.scrollTop] *)
Definition scrollTop (pageYOffset documentElement_scrollTop : Q) : Q :=
  if Qeq_bool pageYOffset 0 then documentElement_scrollTop else pageYOffset.

Definition navbar_classList (f : list string → list string)
  : js (navbar * scroll_closure) unit :=
  js_modify (λ s, (Navbar (f (navbar_classes s.1)) (offsetHeight s.1), s.2)).

(** The listener [initializeNavbarScroll] installs. *)
Definition scroll_listener (pageYOffset documentElement_scrollTop : Q)
  : js (navbar * scroll_closure) unit :=
  let scrollTop := scrollTop pageYOffset documentElement_scrollTop in
  s ← js_get;
  (if Qgtb scrollTop (lastScrollTop s.2) && Qgtb scrollTop (navbarHeight s.2)
   then navbar_classList (classList.add "navbar-hidden")
   else navbar_classList (classList.remove "navbar-hidden")) ;;
  (if Qgtb scrollTop 100
   then navbar_classList (classList.add "navbar-scrolled")
   else navbar_classList (classList.remove "navbar-scrolled")) ;;
  js_modify (λ s, (s.1, ScrollClosure scrollTop (navbarHeight s.2))).

(** ** The event loop

    One event is handled at a time, together with the promise reactions it
    sets off.  [initializeToasts], [initializeSmoothScrolling],
    [updateCartCount] and [initializePageLoad] touch nothing of the state
    kept here and are left out. *)

Record world : Type := World {
  w_page : page;
  w_navbar : navbar;
  w_loaded : bool;                    (* DOMContentLoaded was handled *)
  w_scroll : option scroll_closure;   (* the scroll listener, once installed *)
  w_then : option (list nat);         (* the callback waiting for the sync *)
  w_toggles : list nat                (* hearts with a toggle in flight *)
}.

Inductive event : Type :=
| DOMContentLoaded
| SyncReply (o : fetch_outcome check_data)
| Click (i : nat)
| ToggleReply (k : nat) (o : fetch_outcome toggle_data) (now now' : N)
| Scroll (pageYOffset documentElement_scrollTop : Q).

(** One run of the click listener of heart [i]; an exception it throws is
    reported by the browser and its request is not sent. *)
Definition click_once (i : nat) (pt : page * list nat) : page * list nat :=
  match click_listener i pt.1 with
  | (Normal _, p') => (p', pt.2 ++ [i])
  | (Throw _, p') => (p', pt.2)
  end.

Definition step (w : world) (e : event) : world :=
  match e with
  | DOMContentLoaded =>
      if w_loaded w then w else
      let lastScrollTop := 0%Q in
      let navbarHeight := offsetHeight (w_navbar w) in
      match initializeWishlistHearts (w_page w) with
      | (Throw _, p') =>
          (* the handler stops at its first call *)
          World p' (w_navbar w) true None None (w_toggles w)
      | (Normal (Pending, wishlistHearts), p') =>
          World p' (w_navbar w) true
                (Some (ScrollClosure lastScrollTop navbarHeight))
                (Some wishlistHearts) (w_toggles w)
      | (Normal (Fulfilled, wishlistHearts), p') =>
          (* the callback runs once the handler has returned *)
          World (forEach_heart wishlistHearts p').2 (w_navbar w) true
                (Some (ScrollClosure lastScrollTop navbarHeight))
                None (w_toggles w)
      end
  | SyncReply o =>
      match w_then w with
      | Some wishlistHearts =>
          let p' := (checkWishlistStates_reply o (w_page w)).2 in
          World (forEach_heart wishlistHearts p').2 (w_navbar w) (w_loaded w)
                (w_scroll w) None (w_toggles w)
      | None => w
      end
  | Click i =>
      match page_hearts (w_page w) !! i with
      | Some h =>
          let '(p', toggles) :=
            Nat.iter (heart_listeners h) (click_once i)
                     (w_page w, w_toggles w) in
          World p' (w_navbar w) (w_loaded w) (w_scroll w) (w_then w) toggles
      | None => w
      end
  | ToggleReply k o now now' =>
      match w_toggles w !! k with
      | Some heartElement =>
          World (toggleWishlist_reply heartElement o now now' (w_page w)).2
                (w_navbar w) (w_loaded w) (w_scroll w) (w_then w)
                (delete k (w_toggles w))
      | None => w
      end
  | Scroll y dy =>
      match w_scroll w with
      | Some c =>
          let s := (scroll_listener y dy (w_navbar w, c)).2 in
          World (w_page w) s.1 (w_loaded w) (Some s.2) (w_then w)
                (w_toggles w)
      | None => w
      end
  end.

Definition run (w : world) (es : list event) : world := foldl step w es.

(** The page as the server renders it: no listener yet, nothing requested,
    nothing observed. *)
Definition rendered (hs : list heart) (toasts : option (list toast))
    (cookie : jsstring) : page :=
  Page ((λ h, Heart (heart_classes h) (heart_isbn h) (heart_icon h) 0) <$> hs)
       toasts cookie [] [] [].

Definition start (hs : list heart) (toasts : option (list toast))
    (cookie : jsstring) (nb : navbar) : world :=
  World (rendered hs toasts cookie) nb false None None [].

(** ** What the theorems speak about *)

Definition toasts_of (p : page) : list toast := default [] (page_toasts p).

(** A toast element as inserted, whatever the widget did with it since. *)
Definition as_inserted (t : toast) : toast :=
  Toast (toast_id t) (toast_type t) (toast_icon t) (toast_message t) None.

(** The state [p'] a toggle reply leaves from [p]: heart [i] shows [b] and no
    other heart has changed; the container holds one toast element more than
    before, the last, of category [type] and with message [message]; that
    element is the one shown, unless an older one carries the id made from
    the same clock reading [now]; and no request was made. *)
Definition toggle_result (p p' : page) (i : nat) (b : bool)
    (message type : string) (now : N) : Prop :=
  (∃ h', page_hearts p' = <[i := h']> (page_hearts p) ∧ heart_shows b h') ∧
  as_inserted <$> toasts_of p'
  = (as_inserted <$> toasts_of p)
    ++ [Toast (Some now) type (getToastIcon type) message None] ∧
  ((∀ t, t ∈ toasts_of p → toast_id t ≠ Some now) →
   page_toasts p'
   = Some (toasts_of p
           ++ [Toast (Some now) type (getToastIcon type) message
                     (Some 5000%N)])) ∧
  page_requests p' = page_requests p.

(** The toggle request did not bring back a body: the transport failed, the
    status is not ok, or the body does not parse. *)
Definition toggle_failed (o : fetch_outcome toggle_data) : Prop :=
  match o with
  | NetworkError => True
  | Response ok body => ok = false ∨ body = None
  end.

(** A page to try the theorems on: two hearts, the first not in the
    wishlist, the second in it, and the CSRF cookie between two others. *)
Definition sample_hearts : list heart :=
  [Heart ["wishlist-heart"] (Some "123") (Some ["far"; "fa-heart"; "text-muted"]) 1;
   Heart ["wishlist-heart"; "active"] (Some "456")
         (Some ["fas"; "fa-heart"; "text-danger"]) 1].

Definition sample_page : page :=
  Page sample_hearts None (str "theme=dark; csrftoken=Ab3%2Fx; lang=en")
       [] [] [SyncResolved; ListenerAdded 0; ListenerAdded 1].

(** The statuses the sync reactions get to apply: those of a body that
    parses and says [success: true]. *)
Definition statuses_of (o : fetch_outcome check_data) : list status :=
  match o with
  | Response _ (Some data) =>
      if check_success data then wishlist_status data else []
  | _ => []
  end.

(** The [in_wishlist] of the last status that names [isbn]. *)
Fixpoint last_status (isbn : string) (sts : list status) : option bool :=
  match sts with
  | [] => None
  | st :: sts' =>
      match last_status isbn sts' with
      | Some b => Some b
      | None => if bool_decide (status_isbn st = isbn)
                then Some (status_in_wishlist st) else None
      end
  end.

(** The position of the first heart, in document order, with code [isbn]. *)
Definition first_with_code (isbn : string) (hs : list heart) : option nat :=
  fst <$> list_find (λ h, heart_isbn h = Some isbn) hs.

(** What the sync sets heart [j] to, if anything: the heart must be the
    first with its code, and the code must be named by a status. *)
Definition targeted (hs : list heart) (j : nat) (h : heart)
    (sts : list status) : option bool :=
  match heart_isbn h with
  | Some isbn =>
      if bool_decide (first_with_code isbn hs = Some j)
      then last_status isbn sts else None
  | None => None
  end.

(** What heart [h'] is, given that the sync found heart [h] there. *)
Definition synced (target : option bool) (h h' : heart) : Prop :=
  match target with
  | Some b => heart_shows b h' ∧ heart_isbn h' = heart_isbn h ∧
              heart_listeners h' = heart_listeners h
  | None => h' = h
  end.

(** The sync claim as the specification words it: every heart whose code is
    named by a returned status ends up showing that status. *)
Definition sync_sets_all_named (p : page) (o : fetch_outcome check_data)
  : Prop :=
  ∀ p' j h st,
    checkWishlistStates_reply o p = (Normal tt, p') →
    page_hearts p !! j = Some h →
    st ∈ statuses_of o →
    heart_isbn h = Some (status_isbn st) →
    ∃ h', page_hearts p' !! j = Some h' ∧
          is_active h' = status_in_wishlist st.

(** [p'] differs from [p] at most in the classes of hearts and icons. *)
Definition restyled (p p' : page) : Prop :=
  page_toasts p' = page_toasts p ∧
  page_cookie p' = page_cookie p ∧
  page_requests p' = page_requests p ∧
  page_console p' = page_console p ∧
  page_log p' = page_log p ∧
  heart_listeners <$> page_hearts p' = heart_listeners <$> page_hearts p ∧
  heart_isbn <$> page_hearts p' = heart_isbn <$> page_hearts p.

(** A page on which one book is shown twice, and a reply that puts the
    book in the wishlist. *)
Definition twin_page : page :=
  Page [Heart ["wishlist-heart"] (Some "123") (Some ["far"; "text-muted"]) 0;
        Heart ["wishlist-heart"] (Some "123") (Some ["far"; "text-muted"]) 0]
       None (str "csrftoken=abc") [] [] [].

Definition twin_reply : fetch_outcome check_data :=
  Response true (Some (CheckData true [Status "123" true])).

(** [p'] has the log and the listeners of [p]. *)
Definition quiet (p p' : page) : Prop :=
  page_log p' = page_log p ∧
  heart_listeners <$> page_hearts p' = heart_listeners <$> page_hearts p.

Definition quietly {A} (m : js page A) : Prop :=
  ∀ p r p', m p = (r, p') → quiet p p'.

(** The log starts with the resolution of the sync, and as long as it is
    empty no heart has a listener. *)
Definition sync_first (p : page) : Prop :=
  match page_log p with
  | [] => Forall (λ h, heart_listeners h = 0) (page_hearts p)
  | o :: _ => o = SyncResolved
  end.

#[global] Instance cookie_wf_dec nv : Decision (cookie_wf nv).
Proof. unfold cookie_wf. apply _. Defined.

(** The cookie claim as the specification words it: [null] when no cookie
    has the name, and otherwise a value is returned. *)
Definition getCookie_returns (jar : list (jsstring * jsstring))
    (name : jsstring) : Prop :=
  match jar_lookup name jar with
  | None => getCookie (cookie_string jar) name = Normal None
  | Some _ => ∃ value, getCookie (cookie_string jar) name = Normal (Some value)
  end.

(** What reading [name] from the jar gives: [null], or what decoding the
    value of the first cookie with that name gives once the white space at
    its end is gone: the decoded value, or the URIError. *)
Definition jar_read (name : jsstring) (jar : list (jsstring * jsstring))
  : completion (option jsstring) :=
  match jar_lookup name jar with
  | None => Normal None
  | Some v =>
      match decodeURIComponent (trimEnd v) with
      | Normal d => Normal (Some d)
      | Throw e => Throw e
      end
  end.

(** How far the wiring of the click listeners has got: till the load
    handler has run there is none; while the callback waits for the sync it
    holds every heart of the page and there is still none; afterwards every
    heart has one listener, or none at all if the load handler was cut
    short. *)
Definition wired (w : world) : Prop :=
  let hs := page_hearts (w_page w) in
  match w_then w with
  | Some wishlistHearts =>
      w_loaded w = true ∧ wishlistHearts = seq 0 (length hs) ∧
      Forall (λ h, heart_listeners h = 0) hs
  | None =>
      if w_loaded w
      then Forall (λ h, heart_listeners h = 0) hs ∨
           Forall (λ h, heart_listeners h = 1) hs
      else Forall (λ h, heart_listeners h = 0) hs
  end.

(** The listeners are in place: one on every heart, and nothing left that
    could add another. *)
Definition listening (w : world) : Prop :=
  w_loaded w = true ∧ w_then w = None ∧
  Forall (λ h, heart_listeners h = 1) (page_hearts (w_page w)).

(** The request claim as the specification words it: with a coded heart on
    the page the sync makes its one POST. *)
Definition sync_sends_request (p : page) : Prop :=
  bookIsbns p ≠ [] →
  ∃ csrftoken p',
    checkWishlistStates p = (Normal Pending, p') ∧
    page_requests p'
    = page_requests p
      ++ [Request "/wishlist/check-status/" "POST"
                  [("Content-Type", "application/json")]
                  csrftoken (Some (bookIsbns p))].

(** The toast claim as the specification words it: the reactions to an ok
    reply return and add exactly one toast, of the category of the reply,
    whose message is the reply's [message]. *)
Definition toast_carries_message (p : page) (i : nat) (data : toggle_data)
    (now now' : N) : Prop :=
  let type := if toggle_success data
              then if toggle_in_wishlist data then "success" else "info"
              else "warning" in
  ∃ p', toggleWishlist_reply i (Response true (Some data)) now now' p
        = (Normal tt, p') ∧
        as_inserted <$> toasts_of p'
        = (as_inserted <$> toasts_of p)
          ++ [Toast (Some now) type (getToastIcon type) (toggle_message data)
                    None].

(** * Proofs *)

Ltac js_unfold :=
  unfold mbind, mret, js_mbind, js_mret, js_bind, js_ret, js_modify, js_get,
    js_throw, js_catch, js_lift in *.

(** ** Class lists *)

Lemma contains_add c d cl :
  classList.contains c (classList.add d cl)
  = bool_decide (c = d) || classList.contains c cl.
Proof using Type.
  clear parsed_nodes selected_update.
  unfold classList.add.
  destruct (classList.contains d cl) eqn:Hd; unfold classList.contains in *.
  - apply bool_decide_eq_true in Hd.
    destruct (decide (c = d)) as [->|Hne].
    + rewrite !bool_decide_eq_true_2; done.
    + by rewrite (bool_decide_eq_false_2 (c = d)).
  - destruct (decide (c = d)) as [->|Hne].
    + rewrite (bool_decide_eq_true_2 (d = d)) by done. simpl.
      apply bool_decide_eq_true_2, elem_of_app. right. by left.
    + rewrite (bool_decide_eq_false_2 (c = d)) by done. simpl.
      apply bool_decide_ext. rewrite elem_of_app, list_elem_of_singleton.
      tauto.
Qed.

Lemma contains_remove c d cl :
  classList.contains c (classList.remove d cl)
  = negb (bool_decide (c = d)) && classList.contains c cl.
Proof using Type.
  clear parsed_nodes selected_update.
  unfold classList.remove, classList.contains.
  destruct (decide (c = d)) as [->|Hne].
  - rewrite (bool_decide_eq_true_2 (d = d)) by done. simpl.
    apply bool_decide_eq_false_2. rewrite list_elem_of_filter. tauto.
  - rewrite (bool_decide_eq_false_2 (c = d)) by done. simpl.
    apply bool_decide_ext. rewrite list_elem_of_filter. tauto.
Qed.

Lemma add_present c cl :
  classList.contains c cl = true → classList.add c cl = cl.
Proof. unfold classList.add. by intros ->. Qed.

Lemma remove_absent c cl :
  classList.contains c cl = false → classList.remove c cl = cl.
Proof.
  unfold classList.remove, classList.contains. intros H%bool_decide_eq_false.
  induction cl as [|x cl IH]; [done|].
  rewrite filter_cons. destruct (decide (x ≠ c)) as [Hx|Hx].
  - f_equal. apply IH. intros Hin. apply H. by right.
  - exfalso. apply H. destruct (decide (x = c)) as [->|]; [by left|done].
Qed.

Lemma add_add c cl :
  classList.add c (classList.add c cl) = classList.add c cl.
Proof.
  apply add_present. rewrite contains_add.
  by rewrite (bool_decide_eq_true_2 (c = c)).
Qed.

Lemma remove_remove c cl :
  classList.remove c (classList.remove c cl) = classList.remove c cl.
Proof.
  apply remove_absent. rewrite contains_remove.
  by rewrite (bool_decide_eq_true_2 (c = c)).
Qed.

Lemma remove_add_ne c d cl :
  c ≠ d →
  classList.remove c (classList.add d cl)
  = classList.add d (classList.remove c cl).
Proof.
  intros Hne. unfold classList.add at 2. rewrite contains_remove.
  rewrite (bool_decide_eq_false_2 (d = c)) by congruence. simpl.
  unfold classList.add. destruct (classList.contains d cl); [done|].
  unfold classList.remove. rewrite filter_app. f_equal.
  rewrite filter_cons, filter_nil. by destruct (decide (d ≠ c)).
Qed.

(** ** The heart's visual state *)

Lemma heart_shows_invariant b h : heart_shows b h → heart_invariant h.
Proof.
  unfold heart_shows, heart_invariant, class_state. intros [= -> -> ->].
  destruct b; simpl; intuition congruence.
Qed.

(** One call on a heart with an icon: it returns, the heart shows the
    argument, and nothing else of the heart changes. *)
Lemma updateWishlistHeart_spec b h :
  is_Some (heart_icon h) →
  ∃ h', updateWishlistHeart b h = (Normal tt, h') ∧
        heart_shows b h' ∧
        is_Some (heart_icon h') ∧
        heart_isbn h' = heart_isbn h ∧
        heart_listeners h' = heart_listeners h.
Proof.
  destruct h as [cl isbn icon n]. simpl. intros [ic ->].
  destruct b; eexists; (split; [reflexivity|]);
    unfold heart_shows, class_state, is_active, icon_has; simpl;
    rewrite ?contains_add, ?contains_remove; simpl;
    repeat split; eauto.
  all: repeat (rewrite ?contains_add, ?contains_remove; simpl).
  all: try reflexivity.
Qed.

Lemma updateWishlistHeart_twice b h h' :
  updateWishlistHeart b h = (Normal tt, h') →
  updateWishlistHeart b h' = (Normal tt, h').
Proof.
  destruct h as [cl isbn icon n].
  destruct icon as [ic|]; destruct b; simpl; intros [= <-];
    unfold updateWishlistHeart, heart_classList, heartIcon_classList;
    js_unfold; simpl.
  - rewrite add_add.
    rewrite (remove_add_ne "text-muted" "text-danger") by done.
    by rewrite remove_remove, add_add.
  - rewrite remove_remove.
    rewrite (remove_add_ne "text-danger" "text-muted") by done.
    by rewrite remove_remove, add_add.
Qed.

(** Classes other than the managed ones are left as they were. *)
Lemma updateWishlistHeart_frame b h h' r c :
  updateWishlistHeart b h = (r, h') →
  (c ≠ "active" →
   classList.contains c (heart_classes h')
   = classList.contains c (heart_classes h)) ∧
  (c ≠ "text-muted" → c ≠ "text-danger" → icon_has c h' = icon_has c h).
Proof.
  destruct h as [cl isbn icon n]. unfold icon_has.
  destruct icon as [ic|]; destruct b; simpl; intros [= <- <-]; simpl;
    split; intros;
    rewrite ?contains_add, ?contains_remove;
    rewrite ?(bool_decide_eq_false_2 (c = "active")),
            ?(bool_decide_eq_false_2 (c = "text-muted")),
            ?(bool_decide_eq_false_2 (c = "text-danger")) by done;
    done.
Qed.

(** C9: after every call of [updateWishlistHeart] on a heart with its icon,
    the container has class [active] exactly when the icon has
    [text-danger], and the icon does not carry both [text-muted] and
    [text-danger]; this holds after the first call and after every further
    call, whatever the arguments. *)
Theorem updateWishlistHeart_keeps_invariant (h : heart) (b : bool)
    (bs : list bool) :
  is_Some (heart_icon h) →
  ∃ h', updateWishlistHeart_seq (b :: bs) h = (Normal tt, h') ∧
        heart_invariant h'.
Proof.
  revert h b. induction bs as [|b' bs IH]; intros h b Hicon.
  - destruct (updateWishlistHeart_spec b h Hicon) as (h' & Hrun & Hs & _).
    exists h'. split; [|by eapply heart_shows_invariant].
    simpl. unfold mbind, js_mbind, js_bind. by rewrite Hrun.
  - destruct (updateWishlistHeart_spec b h Hicon) as (h1 & Hrun & _ & Hi & _).
    destruct (IH h1 b' Hi) as (h' & Hseq & Hinv).
    exists h'. split; [|done].
    change (updateWishlistHeart_seq (b :: b' :: bs))
      with (updateWishlistHeart b ;; updateWishlistHeart_seq (b' :: bs)).
    unfold mbind at 1, js_mbind, js_bind. by rewrite Hrun.
Qed.

Lemma updateWishlistHeart_keeps_invariant_witness :
  ∃ h', updateWishlistHeart_seq [true; false; true]
          (Heart ["wishlist-heart"] (Some "123") (Some ["far"; "fa-heart"]) 0)
        = (Normal tt, h') ∧ heart_invariant h'.
Proof.
  apply (updateWishlistHeart_keeps_invariant
           (Heart ["wishlist-heart"] (Some "123") (Some ["far"; "fa-heart"]) 0)
           true [false; true]).
  simpl. eauto.
Defined.

(** C10: [updateWishlistHeart] is idempotent, and the class state it leaves
    (container [active], icon [text-muted], icon [text-danger]) is fixed by
    its argument alone: two hearts in any states end in the same class
    state. *)
Theorem updateWishlistHeart_idempotent_history_independent
    (h1 h2 : heart) (b : bool) :
  is_Some (heart_icon h1) → is_Some (heart_icon h2) →
  ∃ h1' h2',
    updateWishlistHeart b h1 = (Normal tt, h1') ∧
    updateWishlistHeart b h2 = (Normal tt, h2') ∧
    updateWishlistHeart b h1' = (Normal tt, h1') ∧
    class_state h1' = class_state h2' ∧
    class_state h1' = (b, negb b, b).
Proof.
  intros Hi1 Hi2.
  destruct (updateWishlistHeart_spec b h1 Hi1) as (h1' & Hrun1 & Hs1 & _).
  destruct (updateWishlistHeart_spec b h2 Hi2) as (h2' & Hrun2 & Hs2 & _).
  exists h1', h2'. repeat split; try done.
  - by eapply updateWishlistHeart_twice.
  - unfold heart_shows in *. congruence.
Qed.

Lemma updateWishlistHeart_idempotent_history_independent_witness :
  ∃ h1' h2',
    updateWishlistHeart true
      (Heart ["wishlist-heart"] (Some "123") (Some ["far"; "text-muted"]) 0)
    = (Normal tt, h1') ∧
    updateWishlistHeart true
      (Heart ["wishlist-heart"; "active"] (Some "456")
             (Some ["fas"; "text-danger"]) 1)
    = (Normal tt, h2') ∧
    updateWishlistHeart true h1' = (Normal tt, h1') ∧
    class_state h1' = class_state h2' ∧
    class_state h1' = (true, negb true, true).
Proof.
  apply (updateWishlistHeart_idempotent_history_independent
           (Heart ["wishlist-heart"] (Some "123") (Some ["far"; "text-muted"]) 0)
           (Heart ["wishlist-heart"; "active"] (Some "456")
                  (Some ["fas"; "text-danger"]) 1)
           true); simpl; eauto.
Defined.

(** ** The navbar *)

Lemma Qgtb_lt x y : Qgtb x y = true ↔ (y < x)%Q.
Proof.
  unfold Qgtb. rewrite negb_true_iff, <- not_true_iff_false, Qle_bool_iff.
  split; [apply Qnot_le_lt | apply Qlt_not_le].
Qed.

(** C6: after a scroll event at offset [cur], with [last] the offset stored
    by the event before: the navbar has the hidden class exactly when
    [cur > last] and [cur] exceeds the navbar height measured at start-up;
    it has the scrolled class exactly when [cur > 100]; and the stored
    offset is [cur]. *)
Theorem scroll_listener_classes (pageYOffset documentElement_scrollTop : Q)
    (nb : navbar) (c : scroll_closure) :
  let cur := scrollTop pageYOffset documentElement_scrollTop in
  ∃ nb' c',
    scroll_listener pageYOffset documentElement_scrollTop (nb, c)
    = (Normal tt, (nb', c')) ∧
    (classList.contains "navbar-hidden" (navbar_classes nb') = true
     ↔ (lastScrollTop c < cur)%Q ∧ (navbarHeight c < cur)%Q) ∧
    (classList.contains "navbar-scrolled" (navbar_classes nb') = true
     ↔ (100 < cur)%Q) ∧
    lastScrollTop c' = cur ∧
    navbarHeight c' = navbarHeight c.
Proof.
  intros cur. unfold scroll_listener, navbar_classList. fold cur.
  js_unfold. simpl.
  pose proof (Qgtb_lt cur (lastScrollTop c)) as Hlast.
  pose proof (Qgtb_lt cur (navbarHeight c)) as Hheight.
  pose proof (Qgtb_lt cur 100) as Hscrolled.
  destruct (Qgtb cur (lastScrollTop c)), (Qgtb cur (navbarHeight c)),
    (Qgtb cur 100); simpl;
    (eexists _, _; split; [reflexivity|]); simpl;
    repeat (rewrite ?contains_add, ?contains_remove; simpl);
    intuition congruence.
Qed.

(** ** Toasts *)

Lemma show_by_id_as_inserted id d ts :
  as_inserted <$> show_by_id id d ts = as_inserted <$> ts.
Proof.
  induction ts as [|t ts IH]; [done|]. cbn [show_by_id].
  case_bool_decide; rewrite !fmap_cons; [done|]. by rewrite IH.
Qed.

Lemma show_by_id_fresh id d ts c ic m :
  (∀ t, t ∈ ts → toast_id t ≠ Some id) →
  show_by_id id d (ts ++ [Toast (Some id) c ic m None])
  = ts ++ [Toast (Some id) c ic m (Some d)].
Proof.
  induction ts as [|t ts IH]; intros Hfresh; simpl.
  - by rewrite bool_decide_eq_true_2.
  - rewrite bool_decide_eq_false_2 by (apply Hfresh; by left).
    f_equal. apply IH. intros t' Ht'. apply Hfresh. by right.
Qed.

(** A message without [<], [&], NUL and carriage return is read by the
    parser as the text it is. *)
Lemma message_text_plain (message : string) :
  Forall (λ c, N_of_ascii c ∉ [60; 38; 0; 13]%N)
         (String.list_ascii_of_string message) →
  message_text message = Some message.
Proof.
  induction message as [|c rest IH]; [done|].
  cbn [String.list_ascii_of_string]. intros [Hc Hrest]%Forall_cons.
  assert (message_text (String c rest)
          = if bool_decide (N_of_ascii c ∈ [60; 38; 0; 13]%N) then None
            else String c <$> message_text rest) as ->.
  { destruct c as [[] [] [] [] [] [] [] []]; try reflexivity.
    exfalso. apply Hc. right. left. }
  rewrite bool_decide_eq_false_2 by done. by rewrite IH.
Qed.

Lemma show_by_id_length id d ts : length (show_by_id id d ts) = length ts.
Proof.
  induction ts as [|t ts IH]; [done|]. cbn [show_by_id].
  case_bool_decide; simpl; [done|]. by rewrite IH.
Qed.

(** [showToast] with any type and message: it returns, or it throws the
    TypeError of the missing element; either way it has put the nodes of its
    HTML at the end of the container and touched nothing else. *)
Lemma showToast_effect message type duration now p :
  ∃ r ts,
    showToast message type duration now p
    = (r, Page (page_hearts p) (Some ts) (page_cookie p) (page_requests p)
               (page_console p) (page_log p)) ∧
    (r = Normal tt ∨ r = Throw TypeError) ∧
    as_inserted <$> ts
    = as_inserted <$> (toasts_of p ++ toastHtml_nodes message type now).
Proof.
  unfold showToast, createToastContainer, with_toasts, toasts_of. js_unfold.
  destruct p as [hs [ts|] ck rq cs lg]; simpl;
    case_bool_decide; eexists _, _;
    (split; [reflexivity|]); (split; [by eauto|]);
    by rewrite ?show_by_id_as_inserted.
Qed.

Lemma showToast_run message text type duration now p :
  message_text message = Some text →
  plain_type type = true →
  showToast message type duration now p
  = (Normal tt,
     Page (page_hearts p)
          (Some (show_by_id now duration
                   (toasts_of p
                    ++ [Toast (Some now) type (getToastIcon type) text
                              None])))
          (page_cookie p) (page_requests p) (page_console p) (page_log p)).
Proof.
  intros Htext Htype.
  unfold showToast, createToastContainer, with_toasts, toasts_of,
    toastHtml_nodes.
  js_unfold. rewrite Htext, Htype.
  destruct p as [hs [ts|] ck rq cs lg]; simpl;
    rewrite bool_decide_eq_true_2; try reflexivity;
    first [by left | rewrite Exists_app; right; by left].
Qed.

(** ** Updating a heart of the page *)

Lemma on_heart_update i b p h h' :
  page_hearts p !! i = Some h →
  updateWishlistHeart b h = (Normal tt, h') →
  on_heart i (updateWishlistHeart b) p
  = (Normal tt,
     Page (<[i := h']> (page_hearts p)) (page_toasts p) (page_cookie p)
          (page_requests p) (page_console p) (page_log p)).
Proof. unfold on_heart. by intros -> ->. Qed.

Lemma not_active_run i p h :
  page_hearts p !! i = Some h →
  not_active i p = (Normal (negb (is_active h)), p).
Proof.
  unfold not_active, on_heart. intros Hi. rewrite Hi. js_unfold. simpl.
  rewrite list_insert_id by done. by destruct p.
Qed.

(** The [catch] part of the toggle reactions, and the end of their
    [success: false] branch: a toast, then the heart set to the negation of
    what it shows. *)
Lemma toast_and_revert p i h message type now :
  message_text message = Some message →
  plain_type type = true →
  page_hearts p !! i = Some h →
  is_Some (heart_icon h) →
  ∃ p', (showToast message type 5000 now ;;
         b ← not_active i; on_heart i (updateWishlistHeart b)) p
        = (Normal tt, p') ∧
        toggle_result p p' i (negb (is_active h)) message type now ∧
        page_console p' = page_console p.
Proof.
  intros Htext Htype Hi Hicon.
  destruct (updateWishlistHeart_spec (negb (is_active h)) h Hicon)
    as (h' & Hrun & Hshows & _).
  eexists. split.
  - unfold mbind at 1, js_mbind, js_bind.
    rewrite (showToast_run message message) by done.
    unfold mbind, js_mbind, js_bind.
    erewrite not_active_run by exact Hi.
    erewrite on_heart_update by (simpl; eauto). reflexivity.
  - simpl. split; [|done]. unfold toggle_result, toasts_of. simpl.
    split; [eauto|]. split; [|split; [|done]].
    + rewrite show_by_id_as_inserted, fmap_app. done.
    + intros Hfresh. f_equal. by apply show_by_id_fresh.
Qed.

(** ** The toggle reactions *)

(** C1, amended: when the toggle request of a heart that has its icon comes
    back with [success: true] and a message that holds no [<], no [&], no
    NUL and no carriage return, the reactions return, the heart shows the
    [in_wishlist] of the reply, and exactly one toast is added: its message
    is the reply's [message], its category [success] when [in_wishlist] is
    true and [info] when it is false. *)
Theorem toggle_reply_success (p : page) (i : nat) (h : heart)
    (data : toggle_data) (now now' : N) :
  page_hearts p !! i = Some h →
  is_Some (heart_icon h) →
  toggle_success data = true →
  message_text (toggle_message data) = Some (toggle_message data) →
  ∃ p', toggleWishlist_reply i (Response true (Some data)) now now' p
        = (Normal tt, p') ∧
        toggle_result p p' i (toggle_in_wishlist data) (toggle_message data)
          (if toggle_in_wishlist data then "success" else "info") now.
Proof.
  intros Hi Hicon Hsuccess Htext.
  destruct (updateWishlistHeart_spec (toggle_in_wishlist data) h Hicon)
    as (h' & Hrun & Hshows & _).
  eexists. split.
  - unfold toggleWishlist_reply. js_unfold. simpl. rewrite Hsuccess.
    erewrite on_heart_update by eauto.
    rewrite (showToast_run (toggle_message data) (toggle_message data))
      by (by destruct (toggle_in_wishlist data)).
    reflexivity.
  - unfold toggle_result, toasts_of. simpl.
    split; [eauto|]. split; [|split; [|done]].
    + by rewrite show_by_id_as_inserted, fmap_app.
    + intros Hfresh. f_equal. by apply show_by_id_fresh.
Qed.

(** C2, amended: when the toggle request of a heart that has its icon comes
    back with [success: false] and a message that holds no [<], no [&], no
    NUL and no carriage return, the reactions return, one toast of category
    [warning] with the reply's message is added, the heart shows the
    negation of what it showed when the reply was handled, and no request is
    made. *)
Theorem toggle_reply_refused (p : page) (i : nat) (h : heart)
    (data : toggle_data) (now now' : N) :
  page_hearts p !! i = Some h →
  is_Some (heart_icon h) →
  toggle_success data = false →
  message_text (toggle_message data) = Some (toggle_message data) →
  ∃ p', toggleWishlist_reply i (Response true (Some data)) now now' p
        = (Normal tt, p') ∧
        toggle_result p p' i (negb (is_active h)) (toggle_message data)
          "warning" now.
Proof.
  intros Hi Hicon Hsuccess Htext.
  destruct (toast_and_revert p i h (toggle_message data) "warning" now
              Htext eq_refl Hi Hicon) as (p' & Hrun & Hres & _).
  exists p'. split; [|done].
  rewrite <- Hrun. unfold toggleWishlist_reply. js_unfold. simpl.
  rewrite Hsuccess. by rewrite Hrun.
Qed.

(** C3: when the toggle request of a heart fails in transport, comes back
    with a status that is not ok, or with a body that does not parse, the
    reactions return normally (nothing is left unhandled), one toast of
    category [danger] with the message [Error updating wishlist] is added,
    and the heart shows the negation of what it showed. *)
Theorem toggle_reply_failure (p : page) (i : nat) (h : heart)
    (o : fetch_outcome toggle_data) (now now' : N) :
  page_hearts p !! i = Some h →
  is_Some (heart_icon h) →
  toggle_failed o →
  ∃ p', toggleWishlist_reply i o now now' p = (Normal tt, p') ∧
        toggle_result p p' i (negb (is_active h)) "Error updating wishlist"
          "danger" now'.
Proof.
  intros Hi Hicon Hfailed.
  assert (∃ e, (data ← match o with
            | NetworkError => js_throw TypeError
            | Response ok body =>
                if negb ok then js_throw (Error "Network response was not ok")
                else match body with
                     | Some data => mret data
                     | None => js_throw SyntaxError
                     end
            end; mret data) p = (Throw e, p)) as [e He].
  { destruct o as [|[] [d|]]; simpl in Hfailed; js_unfold; simpl; eauto;
      destruct Hfailed; discriminate. }
  set (p1 := Page (page_hearts p) (page_toasts p) (page_cookie p)
                  (page_requests p) (page_console p ++ [ErrorToggle e])
                  (page_log p)).
  destruct (toast_and_revert p1 i h "Error updating wishlist" "danger" now'
              eq_refl eq_refl Hi Hicon) as (p' & Hrun & Hres & _).
  exists p'. split; [|exact Hres].
  rewrite <- Hrun. unfold toggleWishlist_reply. js_unfold.
  destruct o as [|[] [d|]]; simpl in *;
    try (destruct Hfailed; discriminate);
    injection He as <-; reflexivity.
Qed.

(** ** What the heart updates leave alone *)

Lemma restyled_refl p : restyled p p.
Proof. by repeat split. Qed.

Lemma restyled_trans p1 p2 p3 : restyled p1 p2 → restyled p2 p3 → restyled p1 p3.
Proof.
  unfold restyled. intros (?&?&?&?&?&?&?) (?&?&?&?&?&?&?).
  repeat split; congruence.
Qed.

Lemma updateWishlistHeart_keeps b h r h' :
  updateWishlistHeart b h = (r, h') →
  heart_isbn h' = heart_isbn h ∧ heart_listeners h' = heart_listeners h.
Proof.
  destruct h as [cl isbn [ic|] n]; destruct b; simpl; by intros [= <- <-].
Qed.

Lemma on_heart_update_restyled i b p r p' :
  on_heart i (updateWishlistHeart b) p = (r, p') → restyled p p'.
Proof.
  unfold on_heart. destruct (page_hearts p !! i) as [h|] eqn:Hi.
  - destruct (updateWishlistHeart b h) as [r' h'] eqn:Hrun.
    intros [= <- <-]. apply updateWishlistHeart_keeps in Hrun as [Hisbn Hn].
    unfold restyled. simpl. repeat split; try done.
    + rewrite list_fmap_insert, Hn. apply list_insert_id.
      by rewrite list_lookup_fmap, Hi.
    + rewrite list_fmap_insert, Hisbn. apply list_insert_id.
      by rewrite list_lookup_fmap, Hi.
  - intros [= <- <-]. apply restyled_refl.
Qed.

Lemma restyle_keeps cls hs :
  heart_listeners <$> restyle cls hs = heart_listeners <$> hs ∧
  heart_isbn <$> restyle cls hs = heart_isbn <$> hs.
Proof.
  revert hs. induction cls as [|c cls IH]; intros [|h hs]; try done.
  cbn [restyle]. rewrite !fmap_cons. simpl.
  destruct (IH hs) as [-> ->]. done.
Qed.

Lemma selected_heart_update_restyled isbn b p r p' :
  selected_heart_update isbn b p = (r, p') → restyled p p'.
Proof.
  unfold selected_heart_update.
  destruct (selected_update isbn b (page_hearts p)) as [r' cls].
  intros [= <- <-]. unfold restyled. simpl.
  destruct (restyle_keeps cls (page_hearts p)). by repeat split.
Qed.

Lemma status_restyled st p r p' :
  (if css_plain (status_isbn st) then
     heart ← querySelector_heart (status_isbn st);
     match heart with
     | Some i => on_heart i (updateWishlistHeart (status_in_wishlist st))
     | None => mret tt
     end
   else selected_heart_update (status_isbn st) (status_in_wishlist st)) p
  = (r, p') →
  restyled p p'.
Proof.
  destruct (css_plain (status_isbn st));
    [|apply selected_heart_update_restyled].
  unfold querySelector_heart. js_unfold.
  destruct (fst <$> list_find _ (page_hearts p)) as [i|].
  - apply on_heart_update_restyled.
  - intros [= <- <-]. apply restyled_refl.
Qed.

Lemma forEach_status_restyled sts p r p' :
  forEach_status sts p = (r, p') → restyled p p'.
Proof.
  revert p. induction sts as [|st sts IH]; intros p.
  - intros [= <- <-]. apply restyled_refl.
  - cbn [forEach_status]. unfold mbind at 1, js_mbind, js_bind.
    match goal with |- context [match ?m p with _ => _ end] =>
      destruct (m p) as [[[]|e] p1] eqn:Hstep end;
      apply status_restyled in Hstep.
    + intros Hrest. eapply restyled_trans; [done|by eapply IH].
    + by intros [= <- <-].
Qed.

(** The sync reactions always return; they touch the classes of hearts, the
    console and the log, and make no request. *)
Lemma checkWishlistStates_reply_frame o p :
  ∃ p', checkWishlistStates_reply o p = (Normal tt, p') ∧
        page_log p' = page_log p ++ [SyncResolved] ∧
        page_requests p' = page_requests p ∧
        page_toasts p' = page_toasts p ∧
        heart_listeners <$> page_hearts p' = heart_listeners <$> page_hearts p ∧
        heart_isbn <$> page_hearts p' = heart_isbn <$> page_hearts p.
Proof.
  unfold checkWishlistStates_reply, console_error, observe. js_unfold.
  destruct o as [|ok [data|]]; simpl; try (eexists; split; [reflexivity|done]).
  destruct (check_success data); [|eexists; split; [reflexivity|done]].
  destruct (forEach_status (wishlist_status data) p) as [[[]|e] p1] eqn:Hrun;
    apply forEach_status_restyled in Hrun as (?&?&?&?&?&?&?);
    (eexists; split; [reflexivity|]); simpl; repeat split; congruence.
Qed.

(** ** The start-up sync: its request *)

(** C8, as worded, fails when the CSRF cookie does not decode: the cookie
    reader throws while the arguments of [fetch] are built, and no request
    is made. *)
Lemma sync_sends_nothing_on_malformed_token :
  ¬ sync_sends_request
      (Page sample_hearts None (str "csrftoken=%") [] [] []).
Proof.
  intros Hclaim. destruct Hclaim as (csrftoken & p' & Hrun & _); [done|].
  vm_compute in Hrun. discriminate.
Qed.

(** C8, amended: when no heart of the page carries a book code, the sync
    returns a promise that is already fulfilled and makes no request;
    otherwise, when the CSRF cookie can be read, it makes exactly one
    request, a POST to the status-check endpoint whose body lists the
    collected codes under [isbns], and the reactions to its reply make
    none; and when the cookie's value does not decode, it throws the
    reader's exception and makes no request. *)
Theorem checkWishlistStates_request (p : page) :
  (bookIsbns p = [] →
   ∃ p', checkWishlistStates p = (Normal Fulfilled, p') ∧
         page_requests p' = page_requests p ∧
         page_log p' = page_log p ++ [SyncResolved]) ∧
  (bookIsbns p ≠ [] →
   ∀ csrftoken,
     getCookie (page_cookie p) (str "csrftoken") = Normal csrftoken →
     ∃ p', checkWishlistStates p = (Normal Pending, p') ∧
           page_requests p'
           = page_requests p
             ++ [Request "/wishlist/check-status/" "POST"
                         [("Content-Type", "application/json")]
                         csrftoken (Some (bookIsbns p))] ∧
           ∀ o, page_requests (checkWishlistStates_reply o p').2
                = page_requests p') ∧
  (bookIsbns p ≠ [] →
   ∀ e,
     getCookie (page_cookie p) (str "csrftoken") = Throw e →
     checkWishlistStates p = (Throw e, p)).
Proof.
  split; [|split].
  - intros Hnone. unfold checkWishlistStates, observe. js_unfold.
    rewrite Hnone. simpl. eauto.
  - intros Hsome csrftoken Hcookie.
    unfold checkWishlistStates, fetch, observe. js_unfold.
    rewrite bool_decide_eq_false_2
      by (destruct (bookIsbns p); [done|discriminate]).
    rewrite Hcookie. simpl. eexists. split; [reflexivity|]. split; [done|].
    intros o.
    destruct (checkWishlistStates_reply_frame o
      (Page (page_hearts p) (page_toasts p) (page_cookie p)
         (page_requests p ++
          [Request "/wishlist/check-status/" "POST"
             [("Content-Type", "application/json")] csrftoken
             (Some (bookIsbns p))])
         (page_console p) (page_log p))) as (p' & -> & _ & Hreq & _).
    exact Hreq.
  - intros Hsome e Hcookie.
    unfold checkWishlistStates, fetch, observe. js_unfold.
    rewrite bool_decide_eq_false_2
      by (destruct (bookIsbns p); [done|discriminate]).
    by rewrite Hcookie.
Qed.

(** ** The start-up sync: the hearts it sets *)

Lemma first_with_code_codes c hs hs' :
  heart_isbn <$> hs = heart_isbn <$> hs' →
  first_with_code c hs = first_with_code c hs'.
Proof.
  unfold first_with_code. revert hs'.
  induction hs as [|h hs IH]; intros [|h' hs']; try done.
  rewrite !fmap_cons. intros [= Hh Hhs]. simpl. rewrite Hh.
  case_decide; [done|].
  rewrite <- !option_fmap_compose. simpl.
  specialize (IH hs' Hhs).
  destruct (list_find _ hs) as [[]|], (list_find _ hs') as [[]|];
    simpl in *; congruence.
Qed.

Lemma first_with_code_Some c hs i :
  first_with_code c hs = Some i →
  ∃ h, hs !! i = Some h ∧ heart_isbn h = Some c.
Proof.
  unfold first_with_code.
  destruct (list_find _ hs) as [[i' h]|] eqn:Hfind; [|done].
  intros [= <-]. apply list_find_Some in Hfind as (? & ? & _). eauto.
Qed.

Lemma first_with_code_None c hs j h :
  first_with_code c hs = None → hs !! j = Some h → heart_isbn h ≠ Some c.
Proof.
  unfold first_with_code.
  destruct (list_find _ hs) as [[i' h']|] eqn:Hfind; [done|].
  intros _ Hj. apply list_find_None in Hfind.
  by eapply (Forall_lookup_1 _ _ _ _ Hfind).
Qed.

Lemma targeted_codes hs hs' j h sts :
  heart_isbn <$> hs = heart_isbn <$> hs' →
  targeted hs j h sts = targeted hs' j h sts.
Proof.
  intros Hcodes. unfold targeted. destruct (heart_isbn h) as [c|]; [|done].
  by rewrite (first_with_code_codes c hs hs').
Qed.

Lemma last_status_cons_ne c st sts :
  status_isbn st ≠ c → last_status c (st :: sts) = last_status c sts.
Proof.
  intros Hne. simpl. destruct (last_status c sts); [done|].
  by rewrite bool_decide_eq_false_2.
Qed.

Lemma forEach_status_spec sts p :
  (∀ j h st, page_hearts p !! j = Some h → st ∈ sts →
             heart_isbn h = Some (status_isbn st) → is_Some (heart_icon h)) →
  (∀ st, st ∈ sts → css_plain (status_isbn st) = true) →
  ∃ p', forEach_status sts p = (Normal tt, p') ∧
        ∀ j h, page_hearts p !! j = Some h →
          ∃ h', page_hearts p' !! j = Some h' ∧
                synced (targeted (page_hearts p) j h sts) h h'.
Proof.
  revert p. induction sts as [|st sts IH]; intros p Hicons Hplain.
  - exists p. split; [done|]. intros j h Hj. exists h. split; [done|].
    unfold targeted. destruct (heart_isbn h); [|done]. by case_bool_decide.
  - assert (css_plain (status_isbn st) = true) as Hst
      by (apply Hplain; by left).
    assert (∀ st', st' ∈ sts → css_plain (status_isbn st') = true) as Hplain'
      by (intros; apply Hplain; by right).
    cbn [forEach_status]. unfold querySelector_heart. js_unfold. rewrite Hst.
    fold (first_with_code (status_isbn st) (page_hearts p)).
    destruct (first_with_code (status_isbn st) (page_hearts p)) as [i|] eqn:Hq.
    + destruct (first_with_code_Some _ _ _ Hq) as (hi & Hi & Hcode).
      destruct (updateWishlistHeart_spec (status_in_wishlist st) hi)
        as (hi' & Hrun & Hshows & Hicon' & Hisbn & Hn).
      { apply (Hicons i hi st Hi); [by left|done]. }
      rewrite (on_heart_update i _ p hi hi' Hi Hrun).
      set (p1 := Page (<[i := hi']> (page_hearts p)) (page_toasts p)
                      (page_cookie p) (page_requests p) (page_console p)
                      (page_log p)).
      assert (heart_isbn <$> page_hearts p1 = heart_isbn <$> page_hearts p)
        as Hcodes.
      { simpl. rewrite list_fmap_insert, Hisbn. apply list_insert_id.
        by rewrite list_lookup_fmap, Hi. }
      destruct (IH p1) as (p' & Hrest & Hhearts); [|done|].
      { simpl. intros j h st' [(-> & <- & _)|[_ Hj]]%list_lookup_insert_Some;
          [done|]. intros Hst' Hh. apply (Hicons j h st' Hj); [by right|done]. }
      exists p'. split; [done|]. intros j h Hj.
      destruct (decide (j = i)) as [->|Hne].
      * assert (h = hi) as -> by congruence.
        destruct (Hhearts i hi') as (h' & Hi' & Hsync).
        { simpl. apply list_lookup_insert_eq. by eapply lookup_lt_Some. }
        exists h'. split; [done|].
        rewrite (targeted_codes _ _ _ _ _ Hcodes) in Hsync.
        unfold targeted in *. rewrite Hisbn in Hsync. rewrite Hcode in *.
        rewrite Hq in *. rewrite bool_decide_eq_true_2 in * by done.
        cbn [last_status].
        destruct (last_status (status_isbn st) sts) as [b|]; simpl in *.
        -- destruct Hsync as (? & ? & ?). repeat split; congruence.
        -- subst h'. rewrite bool_decide_eq_true_2 by done. simpl.
           repeat split; congruence.
      * destruct (Hhearts j h) as (h' & Hj' & Hsync).
        { simpl. by rewrite list_lookup_insert_ne. }
        exists h'. split; [done|].
        rewrite (targeted_codes _ _ _ _ _ Hcodes) in Hsync.
        unfold targeted in *. destruct (heart_isbn h) as [c|]; [|done].
        case_bool_decide as Hfirst; [|done].
        rewrite last_status_cons_ne; [done|].
        intros <-. congruence.
    + destruct (IH p) as (p' & Hrest & Hhearts); [|done|].
      { intros j h st' Hj Hst'. apply (Hicons j h st' Hj). by right. }
      exists p'. split; [done|]. intros j h Hj.
      destruct (Hhearts j h Hj) as (h' & Hj' & Hsync).
      exists h'. split; [done|].
      unfold targeted in *. destruct (heart_isbn h) as [c|] eqn:Hc; [|done].
      case_bool_decide as Hfirst; [|done].
      rewrite last_status_cons_ne; [done|].
      intros <-. by eapply first_with_code_None.
Qed.

(** What the sync reactions do set, when the hearts a status names have
    their icon and the returned codes can stand in the selector as they
    are: the reactions return; after a reply with [success: true], for each
    code named by a returned status the first heart in document order with
    that code shows the [in_wishlist] of the last status naming it, and
    every other heart is exactly as before; after a transport failure, a
    body that does not parse or [success: false], every heart is exactly as
    before. *)
Theorem checkWishlistStates_reply_hearts (p : page)
    (o : fetch_outcome check_data) :
  (∀ j h st, page_hearts p !! j = Some h → st ∈ statuses_of o →
             heart_isbn h = Some (status_isbn st) → is_Some (heart_icon h)) →
  (∀ st, st ∈ statuses_of o → css_plain (status_isbn st) = true) →
  ∃ p', checkWishlistStates_reply o p = (Normal tt, p') ∧
        length (page_hearts p') = length (page_hearts p) ∧
        (∀ j h, page_hearts p !! j = Some h →
           ∃ h', page_hearts p' !! j = Some h' ∧
                 synced (targeted (page_hearts p) j h (statuses_of o)) h h') ∧
        (statuses_of o = [] → page_hearts p' = page_hearts p).
Proof.
  intros Hicons Hplain.
  assert (∀ j h, page_hearts p !! j = Some h →
            synced (targeted (page_hearts p) j h []) h h) as Hsame.
  { intros j h _. unfold targeted. destruct (heart_isbn h); [|done].
    by case_bool_decide. }
  unfold checkWishlistStates_reply, console_error, observe. js_unfold.
  destruct o as [|ok [data|]]; simpl in *;
    try (eexists; split; [reflexivity|]; simpl; by eauto 10).
  destruct (check_success data);
    [|eexists; split; [reflexivity|]; simpl; by eauto 10].
  destruct (forEach_status_spec (wishlist_status data) p Hicons Hplain)
    as (p' & Hrun & Hhearts).
  rewrite Hrun. eexists. split; [reflexivity|]. simpl.
  split; [|split; [done|]].
  - apply forEach_status_restyled in Hrun as (_&_&_&_&_&Hn&_).
    by rewrite <- (length_fmap heart_listeners), Hn, length_fmap.
  - intros Hnil. rewrite Hnil in Hrun. by injection Hrun as <-.
Qed.

(** ** Handlers that leave log and listeners alone *)

Lemma quiet_refl p : quiet p p.
Proof. by split. Qed.

Lemma quiet_trans p1 p2 p3 : quiet p1 p2 → quiet p2 p3 → quiet p1 p3.
Proof. unfold quiet. intros [] []. split; congruence. Qed.

Lemma restyled_quiet p p' : restyled p p' → quiet p p'.
Proof. unfold restyled, quiet. tauto. Qed.

Lemma quietly_ret {A} (a : A) : quietly (mret a).
Proof. intros p r p' [= <- <-]. apply quiet_refl. Qed.

Lemma quietly_throw {A} e : quietly (@js_throw page A e).
Proof. intros p r p' [= <- <-]. apply quiet_refl. Qed.

Lemma quietly_lift {A} (c : completion A) : quietly (js_lift c).
Proof. intros p r p' [= <- <-]. apply quiet_refl. Qed.

Lemma quietly_get : quietly js_get.
Proof. intros p r p' [= <- <-]. apply quiet_refl. Qed.

Lemma quietly_bind {A B} (m : js page A) (k : A → js page B) :
  quietly m → (∀ a, quietly (k a)) → quietly (m ≫= k).
Proof.
  intros Hm Hk p r p'. unfold mbind, js_mbind, js_bind.
  destruct (m p) as [[a|e] p1] eqn:Hrun.
  - intros Hrest. eapply quiet_trans; [by eapply Hm|by eapply Hk].
  - intros [= <- <-]. by eapply Hm.
Qed.

Lemma quietly_catch {A} (m : js page A) (h : exn → js page A) :
  quietly m → (∀ e, quietly (h e)) → quietly (js_catch m h).
Proof.
  intros Hm Hh p r p'. unfold js_catch.
  destruct (m p) as [[a|e] p1] eqn:Hrun.
  - intros [= <- <-]. by eapply Hm.
  - intros Hrest. eapply quiet_trans; [by eapply Hm|by eapply Hh].
Qed.

Lemma quietly_showToast message type duration now :
  quietly (showToast message type duration now).
Proof.
  intros p r p'.
  destruct (showToast_effect message type duration now p)
    as (r0 & ts & -> & _). by intros [= <- <-].
Qed.

Lemma quietly_console_error c : quietly (console_error c).
Proof. by intros p r p' [= <- <-]. Qed.

Lemma quietly_fetch rq : quietly (fetch rq).
Proof. by intros p r p' [= <- <-]. Qed.

Lemma quietly_update i b : quietly (on_heart i (updateWishlistHeart b)).
Proof.
  intros p r p' Hrun. by eapply restyled_quiet, on_heart_update_restyled.
Qed.

Lemma quietly_read {A} i (f : heart → A) :
  quietly (on_heart i (h ← js_get; mret (f h))).
Proof.
  intros p r p'. unfold on_heart. js_unfold.
  destruct (page_hearts p !! i) as [h|] eqn:Hi; intros [= <- <-].
  - split; simpl; [done|]. by rewrite list_insert_id.
  - apply quiet_refl.
Qed.

Lemma quietly_heart i : quietly (on_heart i js_get).
Proof.
  intros p r p'. unfold on_heart. js_unfold.
  destruct (page_hearts p !! i) as [h|] eqn:Hi; intros [= <- <-].
  - split; simpl; [done|]. by rewrite list_insert_id.
  - apply quiet_refl.
Qed.

Create HintDb quiet.
#[local] Hint Resolve quietly_ret quietly_throw quietly_lift quietly_get
  quietly_showToast quietly_console_error quietly_fetch quietly_update
  quietly_read quietly_heart : quiet.

Ltac quiet_steps :=
  repeat first
    [ solve [eauto with quiet]
    | apply quietly_catch
    | apply quietly_bind
    | match goal with |- ∀ _, quietly _ => intros ? end ].

Lemma quietly_toggleWishlist_reply i o now now' :
  quietly (toggleWishlist_reply i o now now').
Proof.
  unfold toggleWishlist_reply, not_active.
  apply quietly_catch; [apply quietly_bind|]; quiet_steps.
  - destruct o as [|[] [data|]]; simpl; eauto with quiet.
  - match goal with |- context [toggle_success ?d] =>
      destruct (toggle_success d) end; quiet_steps.
Qed.

Lemma quietly_click_listener i : quietly (click_listener i).
Proof. unfold click_listener, toggleWishlist. quiet_steps. Qed.

Lemma quiet_clicks n i p toggles :
  quiet p (Nat.iter n (click_once i) (p, toggles)).1.
Proof.
  induction n as [|n IH]; simpl; [apply quiet_refl|].
  unfold click_once at 1.
  destruct (click_listener i _) as [[[]|e] p1] eqn:Hrun;
    apply quietly_click_listener in Hrun; simpl;
    by eapply quiet_trans.
Qed.

(** ** Start-up order *)

Lemma checkWishlistStates_log p r p' :
  checkWishlistStates p = (r, p') →
  (r = Normal Fulfilled ∧ page_log p' = page_log p ++ [SyncResolved]) ∨
  (r ≠ Normal Fulfilled ∧ quiet p p').
Proof.
  unfold checkWishlistStates, fetch, observe. js_unfold.
  case_bool_decide.
  - intros [= <- <-]. by left.
  - destruct (getCookie _ _); intros [= <- <-]; right; done.
Qed.

Lemma forEach_heart_log wishlistHearts p :
  ∃ l, page_log (forEach_heart wishlistHearts p).2 = page_log p ++ l.
Proof.
  revert p. induction wishlistHearts as [|i rest IH]; intros p.
  - exists []. simpl. by rewrite app_nil_r.
  - cbn [forEach_heart]. unfold initializeWishlistHeart, on_heart, observe.
    js_unfold. destruct (page_hearts p !! i) as [h|]; simpl.
    + match goal with |- context [forEach_heart rest ?q] =>
        destruct (IH q) as [l Hl] end.
      exists (ListenerAdded i :: l). rewrite Hl. simpl.
      by rewrite <- app_assoc.
    + exists []. by rewrite app_nil_r.
Qed.

Lemma sync_first_quiet p p' : quiet p p' → sync_first p → sync_first p'.
Proof.
  unfold quiet, sync_first. intros [-> Hn].
  destruct (page_log p); [|done].
  intros Hzero.
  apply (Forall_fmap heart_listeners (λ n, n = 0)).
  rewrite Hn. by apply Forall_fmap.
Qed.

Lemma sync_first_resolved p p' l :
  page_log p' = page_log p ++ SyncResolved :: l →
  sync_first p → sync_first p'.
Proof.
  unfold sync_first. intros ->. by destruct (page_log p).
Qed.

Lemma sync_first_step w e :
  sync_first (w_page w) → sync_first (w_page (step w e)).
Proof.
  intros Hinv. destruct e as [|o|i|k o now now'|y dy]; simpl.
  - destruct (w_loaded w); [done|].
    unfold initializeWishlistHearts. js_unfold.
    destruct (checkWishlistStates (w_page w)) as [[[]|e] p1] eqn:Hsync;
      simpl;
      apply checkWishlistStates_log in Hsync as [[? Hlog]|[? Hquiet]];
      try done; try by eapply sync_first_quiet.
    destruct (forEach_heart_log (seq 0 (length (page_hearts (w_page w)))) p1)
      as [l Hl].
    eapply sync_first_resolved; [|done].
    rewrite Hl, Hlog. by rewrite <- app_assoc.
  - destruct (w_then w) as [wishlistHearts|]; [|done]. simpl.
    destruct (checkWishlistStates_reply_frame o (w_page w))
      as (p1 & -> & Hlog & _).
    destruct (forEach_heart_log wishlistHearts p1) as [l Hl].
    eapply sync_first_resolved; [|done].
    simpl. rewrite Hl, Hlog. by rewrite <- app_assoc.
  - destruct (page_hearts (w_page w) !! i) as [h|]; [|done].
    pose proof (quiet_clicks (heart_listeners h) i (w_page w) (w_toggles w))
      as Hquiet.
    destruct (Nat.iter _ _ _) as [p' toggles]. simpl in *.
    by eapply sync_first_quiet.
  - destruct (w_toggles w !! k) as [heartElement|]; [|done]. simpl.
    eapply sync_first_quiet; [|done].
    eapply quietly_toggleWishlist_reply. apply surjective_pairing.
  - by destruct (w_scroll w).
Qed.

Lemma sync_first_run es w :
  sync_first (w_page w) → sync_first (w_page (run w es)).
Proof.
  revert w. induction es as [|e es IH]; intros w Hinv; [done|].
  simpl. by apply IH, sync_first_step.
Qed.

(** C5: in every run of the page from the state the server renders, the
    start-up sync has resolved, whether it went well or not, before any
    click listener is added to a heart: every [ListenerAdded] of the log
    comes after a [SyncResolved], and a heart holds a listener only once
    [SyncResolved] is in the log. *)
Theorem listeners_added_after_sync (hs : list heart)
    (toasts : option (list toast)) (cookie : jsstring) (nb : navbar)
    (es : list event) :
  let p := w_page (run (start hs toasts cookie nb) es) in
  (∀ pre i post,
     page_log p = pre ++ ListenerAdded i :: post → SyncResolved ∈ pre) ∧
  (∀ h, h ∈ page_hearts p → heart_listeners h ≠ 0 →
        SyncResolved ∈ page_log p).
Proof.
  intros p.
  assert (sync_first p) as Hinv.
  { apply sync_first_run. unfold sync_first, start, rendered. simpl.
    apply Forall_fmap, Forall_forall. done. }
  unfold sync_first in Hinv. split.
  - intros pre i post Hlog. rewrite Hlog in Hinv.
    destruct pre as [|o pre]; simpl in Hinv; [done|].
    subst o. by left.
  - intros h Hh Hn. destruct (page_log p) as [|o l].
    + rewrite Forall_forall in Hinv. by destruct Hn, (Hinv h Hh).
    + subst o. by left.
Qed.

(** ** The cookie reader *)

Lemma js_split_cons_ne sep c s :
  c ≠ sep →
  ∃ piece pieces, js_split sep s = piece :: pieces ∧
                  js_split sep (c :: s) = (c :: piece) :: pieces.
Proof.
  intros Hne. simpl. rewrite (proj2 (N.eqb_neq c sep) Hne).
  destruct s as [|c' s']; simpl; [by eauto|].
  destruct (c' =? sep)%N; [by eauto|].
  destruct (js_split sep s'); eauto.
Qed.

Lemma js_split_no_sep sep s : sep ∉ s → js_split sep s = [s].
Proof.
  induction s as [|c s IH]; [done|].
  intros [Hne Hs]%not_elem_of_cons.
  destruct (js_split_cons_ne sep c s) as (piece & pieces & Hsplit & ->);
    [done|].
  rewrite IH in Hsplit by done. by injection Hsplit as <- <-.
Qed.

Lemma js_split_app_sep sep a b :
  sep ∉ a → js_split sep (a ++ sep :: b) = a :: js_split sep b.
Proof.
  induction a as [|c a IH]; simpl.
  - by rewrite N.eqb_refl.
  - intros [Hne Ha]%not_elem_of_cons.
    rewrite (proj2 (N.eqb_neq c sep)) by done. by rewrite IH.
Qed.

Lemma trim_space s : trim (32%N :: s) = trim s.
Proof. reflexivity. Qed.

Lemma cookie_string_cons n v nv jar :
  cookie_string ((n, v) :: nv :: jar)
  = (n ++ str "=" ++ v) ++ 59%N :: 32%N :: cookie_string (nv :: jar).
Proof. cbn [cookie_string]. destruct nv. by rewrite <- !app_assoc. Qed.

(** The pieces between the semicolons are the pairs, up to trimming. *)
Lemma trimStart_length s : length (trimStart s) ≤ length s.
Proof.
  induction s as [|c s IH]; [done|]. simpl.
  destruct (isWhiteSpace c); simpl; lia.
Qed.

Lemma trimStart_stop a c b :
  isWhiteSpace c = false → trimStart (a ++ c :: b) = trimStart a ++ c :: b.
Proof.
  intros Hc. induction a as [|x a IH]; cbn [app trimStart].
  - by rewrite Hc.
  - by destruct (isWhiteSpace x).
Qed.

Lemma trimStart_fixed_app s t :
  trimStart s = s → s ≠ [] → trimStart (s ++ t) = s ++ t.
Proof.
  destruct s as [|c s]; [done|]. intros Hfix _. cbn [app trimStart] in *.
  destruct (isWhiteSpace c); [|done].
  pose proof (trimStart_length s) as Hlen. rewrite Hfix in Hlen.
  simpl in Hlen. lia.
Qed.

(** A pair, trimmed: only the white space at the end of the value goes. *)
Lemma trim_pair n v :
  trimStart n = n →
  trim (n ++ str "=" ++ v) = n ++ str "=" ++ trimEnd v.
Proof.
  intros Hn. change (str "=") with [61%N]. unfold trim.
  assert (trimStart (n ++ [61%N] ++ v) = n ++ [61%N] ++ v) as ->.
  { destruct n as [|c n]; [done|]. by apply trimStart_fixed_app. }
  unfold trimEnd. cbn [app].
  rewrite reverse_app, reverse_cons, <- app_assoc. cbn [app].
  rewrite trimStart_stop by done.
  rewrite reverse_app, reverse_cons, reverse_involutive.
  by rewrite <- app_assoc.
Qed.

Lemma js_split_cookie_string jar :
  Forall cookie_wf jar → jar ≠ [] →
  Forall2 (λ piece nv, trim piece = nv.1 ++ str "=" ++ trimEnd nv.2)
          (js_split 59 (cookie_string jar)) jar.
Proof.
  induction jar as [|[n v] jar IH]; [done|].
  intros Hwf _. apply Forall_cons in Hwf as [(Hn & _ & Hv & Htrim) Hwf].
  cbn [fst snd] in Hn, Hv, Htrim.
  assert (59%N ∉ n ++ str "=" ++ v) as Hnv.
  { rewrite !elem_of_app. intros [?|[Heq|?]]; [done| |done].
    apply list_elem_of_singleton in Heq. discriminate. }
  destruct jar as [|nv jar].
  - cbn [cookie_string]. rewrite js_split_no_sep by done.
    constructor; [|constructor]. by apply trim_pair.
  - rewrite cookie_string_cons, js_split_app_sep by done.
    constructor; [by apply trim_pair|].
    specialize (IH Hwf ltac:(done)).
    destruct (js_split_cons_ne 59 32 (cookie_string (nv :: jar)))
      as (piece & pieces & Hsplit & ->); [done|].
    rewrite Hsplit in IH. inversion IH as [|? ? ? ? Hpiece Hrest]; subst.
    constructor; [|done]. by rewrite trim_space.
Qed.

Lemma before_equals (a b x y : jsstring) :
  61%N ∉ a → 61%N ∉ b → a ++ 61%N :: x = b ++ 61%N :: y → a = b.
Proof.
  revert b. induction a as [|c a IH]; intros [|d b] Ha Hb; simpl.
  - done.
  - intros [= <- _]. destruct Hb. by left.
  - intros [= -> _]. destruct Ha. by left.
  - apply not_elem_of_cons in Ha as [_ Ha].
    apply not_elem_of_cons in Hb as [_ Hb].
    intros [= -> Heq]. f_equal. by eapply IH.
Qed.

Lemma name_prefix name n v :
  61%N ∉ name → 61%N ∉ n →
  take (length name + 1) (n ++ str "=" ++ v) = name ++ str "=" ↔ n = name.
Proof.
  intros Hname Hn. change (str "=") with [61%N]. split.
  - intros Htake.
    pose proof (take_drop (length name + 1) (n ++ [61%N] ++ v)) as Hsplit.
    rewrite Htake, <- app_assoc in Hsplit. simpl in Hsplit.
    symmetry. by eapply before_equals.
  - intros ->. rewrite app_assoc.
    rewrite take_app_length'; [done|].
    rewrite length_app. simpl. done.
Qed.

Lemma getCookie_loop_jar name pieces jar :
  61%N ∉ name →
  Forall cookie_wf jar →
  Forall2 (λ piece nv, trim piece = nv.1 ++ str "=" ++ trimEnd nv.2)
          pieces jar →
  getCookie_loop name pieces = jar_read name jar.
Proof.
  intros Hname Hwf Hpieces. unfold jar_read.
  induction Hpieces as [|piece [n v] pieces jar Hpiece _ IH]; [done|].
  apply Forall_cons in Hwf as [(_ & Hn & _) Hwf]. cbn [fst snd] in Hn, Hpiece.
  cbn [getCookie_loop jar_lookup]. rewrite Hpiece.
  destruct (decide (n = name)) as [->|Hne].
  - rewrite !bool_decide_eq_true_2; [|done|by apply name_prefix].
    replace (drop (length name + 1) (name ++ str "=" ++ trimEnd v))
      with (trimEnd v); [done|].
    rewrite app_assoc, drop_app_length'; [done|].
    rewrite length_app. simpl. done.
  - rewrite !bool_decide_eq_false_2; [by apply IH|done|].
    by rewrite name_prefix.
Qed.

(** C7, as worded, fails on a cookie whose value is not a well-formed
    escape sequence: the cookie is there, and the reader throws. *)
Lemma getCookie_throws_on_malformed_value :
  ¬ getCookie_returns [(str "discount", str "100%")] (str "discount").
Proof.
  unfold getCookie_returns. vm_compute. intros [value Hvalue].
  discriminate.
Qed.

(** C7, amended: for every cookie string made of stored cookies, in any
    order, whose names hold no [;] and no [=] and do not start with white
    space and whose values hold no [;], and every name without [=] that is
    looked up: when no cookie has the name the reader returns [null]; when
    one has, the reader
    takes the value of the first such cookie, wherever it stands, strips
    the white space at its end and decodes what is left: it returns the
    decoded text if that is well formed and throws the URIError of
    [decodeURIComponent] if it is not. *)
Theorem getCookie_cookie_string (jar : list (jsstring * jsstring))
    (name : jsstring) :
  Forall cookie_wf jar →
  61%N ∉ name →
  getCookie (cookie_string jar) name = jar_read name jar.
Proof.
  intros Hwf Hname. unfold getCookie.
  destruct jar as [|nv jar]; [done|].
  rewrite bool_decide_eq_true_2.
  - apply getCookie_loop_jar; [done..|]. by apply js_split_cookie_string.
  - destruct nv as [n v], jar as [|[] ?]; cbn [cookie_string];
      by destruct n.
Qed.

Lemma getCookie_cookie_string_witness :
  getCookie
    (cookie_string [(str "theme", str "dark"); (str "csrftoken", str "Ab3%2Fx");
                    (str "lang", str "en")])
    (str "csrftoken")
  = Normal (Some (str "Ab3/x")).
Proof.
  apply (getCookie_cookie_string
           [(str "theme", str "dark"); (str "csrftoken", str "Ab3%2Fx");
            (str "lang", str "en")] (str "csrftoken")).
  - refine (bool_decide_unpack _ _). vm_compute. exact I.
  - refine (bool_decide_unpack _ _). vm_compute. exact I.
Defined.

(** ** The embedding at work *)

(** A value without a percent sign decodes to itself. *)
Lemma decodeURIComponent_plain (s : jsstring) :
  37%N ∉ s → decodeURIComponent s = Normal s.
Proof.
  intros Hs. unfold decodeURIComponent.
  assert (uri_tokens s = Some (Lit <$> s)) as ->.
  { induction s as [|c s IH]; [done|].
    apply not_elem_of_cons in Hs as [Hc Hs]. simpl.
    rewrite (proj2 (N.eqb_neq c 37)) by done. by rewrite IH. }
  clear Hs.
  assert (utf8_decode (Lit <$> s) = Some s) as Hdecode.
  { induction s as [|c s IH]; [done|]. rewrite fmap_cons.
    cbn [utf8_decode]. by rewrite IH. }
  change (Some (Lit <$> s) ≫= utf8_decode) with (utf8_decode (Lit <$> s)).
  by rewrite Hdecode.
Qed.

(** * Further properties of the script *)

(** ** The click listener and the toggle request *)

Lemma on_heart_get i p h :
  page_hearts p !! i = Some h → on_heart i js_get p = (Normal h, p).
Proof.
  unfold on_heart. intros Hi. rewrite Hi. js_unfold.
  rewrite list_insert_id by done. by destruct p.
Qed.

(** A click on a heart sends one POST to the toggle endpoint of the heart's
    book code, [undefined] standing for a missing code, with the CSRF token
    as read from the cookie; no heart, toast or listener changes on the
    click itself. *)
Theorem click_listener_sends (p : page) (i : nat) (h : heart)
    (csrftoken : option jsstring) :
  page_hearts p !! i = Some h →
  getCookie (page_cookie p) (str "csrftoken") = Normal csrftoken →
  click_listener i p
  = (Normal tt,
     Page (page_hearts p) (page_toasts p) (page_cookie p)
          (page_requests p
           ++ [Request ("/wishlist/toggle-ajax/"
                        +:+ default "undefined" (heart_isbn h) +:+ "/")
                       "POST" [("X-Requested-With", "XMLHttpRequest")]
                       csrftoken None])
          (page_console p) (page_log p)).
Proof.
  intros Hi Hcookie. unfold click_listener.
  unfold mbind at 1, js_mbind, js_bind. rewrite (on_heart_get i p h Hi).
  unfold toggleWishlist, fetch. js_unfold. by rewrite Hcookie.
Qed.

Lemma click_listener_sends_witness :
  click_listener 0 sample_page
  = (Normal tt,
     Page sample_hearts None (page_cookie sample_page)
          [Request "/wishlist/toggle-ajax/123/" "POST"
                   [("X-Requested-With", "XMLHttpRequest")]
                   (Some (str "Ab3/x")) None]
          [] [SyncResolved; ListenerAdded 0; ListenerAdded 1]).
Proof.
  apply (click_listener_sends sample_page 0
           (Heart ["wishlist-heart"] (Some "123")
                  (Some ["far"; "fa-heart"; "text-muted"]) 1)
           (Some (str "Ab3/x"))).
  - reflexivity.
  - vm_compute. reflexivity.
Defined.

(** When the CSRF cookie does not decode, the click listener throws what the
    cookie reader throws, sends nothing and leaves the page as it is. *)
Theorem click_listener_throws (p : page) (i : nat) (h : heart) (e : exn) :
  page_hearts p !! i = Some h →
  getCookie (page_cookie p) (str "csrftoken") = Throw e →
  click_listener i p = (Throw e, p).
Proof.
  intros Hi Hcookie. unfold click_listener.
  unfold mbind at 1, js_mbind, js_bind. rewrite (on_heart_get i p h Hi).
  unfold toggleWishlist, fetch. js_unfold. by rewrite Hcookie.
Qed.

Lemma click_listener_throws_witness :
  click_listener 0 (Page sample_hearts None (str "csrftoken=%") [] [] [])
  = (Throw URIError, Page sample_hearts None (str "csrftoken=%") [] [] []).
Proof.
  apply (click_listener_throws
           (Page sample_hearts None (str "csrftoken=%") [] [] []) 0
           (Heart ["wishlist-heart"] (Some "123")
                  (Some ["far"; "fa-heart"; "text-muted"]) 1)
           URIError).
  - reflexivity.
  - vm_compute. reflexivity.
Defined.

(** ** Toggle replies: hearts without icon, and repeated failures *)

Lemma updateWishlistHeart_without_icon b h :
  heart_icon h = None →
  ∃ h1, updateWishlistHeart b h = (Throw TypeError, h1) ∧
        heart_icon h1 = None.
Proof.
  destruct h as [cl isbn icon n]. simpl. intros ->.
  destruct b; eexists; split; reflexivity.
Qed.

Lemma on_heart_update_without_icon i b p h :
  page_hearts p !! i = Some h →
  heart_icon h = None →
  ∃ h1, on_heart i (updateWishlistHeart b) p
        = (Throw TypeError,
           Page (<[i := h1]> (page_hearts p)) (page_toasts p) (page_cookie p)
                (page_requests p) (page_console p) (page_log p)) ∧
        heart_icon h1 = None.
Proof.
  intros Hi Hicon.
  destruct (updateWishlistHeart_without_icon b h Hicon) as (h1 & Hrun & Hh1).
  exists h1. split; [|done]. unfold on_heart. by rewrite Hi, Hrun.
Qed.

(** A toast and the revert, on a heart without icon: whatever the message,
    this ends in an exception, with no request made and the heart still
    without icon. *)
Lemma toast_and_revert_throws p i h message type now :
  page_hearts p !! i = Some h →
  heart_icon h = None →
  ∃ e p' h1,
    (showToast message type 5000 now ;;
     b ← not_active i; on_heart i (updateWishlistHeart b)) p
    = (Throw e, p') ∧
    page_hearts p' !! i = Some h1 ∧ heart_icon h1 = None ∧
    page_requests p' = page_requests p.
Proof.
  intros Hi Hicon.
  destruct (showToast_effect message type 5000 now p)
    as (r & ts & Htoast & [->| ->] & _).
  - set (p1 := Page (page_hearts p) (Some ts) (page_cookie p)
                    (page_requests p) (page_console p) (page_log p)) in *.
    destruct (on_heart_update_without_icon i (negb (is_active h)) p1 h
                Hi Hicon) as (h1 & Hrun & Hh1).
    eexists TypeError, _, h1. split.
    + unfold mbind at 1, js_mbind, js_bind. rewrite Htoast.
      unfold mbind, js_mbind, js_bind.
      rewrite (not_active_run i p1 h Hi). exact Hrun.
    + simpl. split; [|done].
      apply list_lookup_insert_eq. by eapply lookup_lt_Some.
  - eexists TypeError, _, h. split.
    + unfold mbind at 1, js_mbind, js_bind. by rewrite Htoast.
    + done.
Qed.

(** The same with the error toast: it is the last element inserted. *)
Lemma toast_and_revert_without_icon p i h message type now :
  message_text message = Some message →
  plain_type type = true →
  page_hearts p !! i = Some h →
  heart_icon h = None →
  ∃ p', (showToast message type 5000 now ;;
         b ← not_active i; on_heart i (updateWishlistHeart b)) p
        = (Throw TypeError, p') ∧
        last (as_inserted <$> toasts_of p')
        = Some (Toast (Some now) type (getToastIcon type) message None) ∧
        page_requests p' = page_requests p ∧
        (∃ h1, page_hearts p' !! i = Some h1 ∧ heart_icon h1 = None).
Proof.
  intros Htext Htype Hi Hicon.
  set (p1 := (showToast message type 5000 now p).2).
  assert (showToast message type 5000 now p = (Normal tt, p1)) as Htoast
    by (unfold p1; by rewrite (showToast_run message message)).
  assert (page_hearts p1 = page_hearts p) as Hhearts
    by (unfold p1; by rewrite (showToast_run message message)).
  destruct (on_heart_update_without_icon i (negb (is_active h)) p1 h)
    as (h1 & Hrun & Hh1); [by rewrite Hhearts|done|].
  eexists. split.
  - unfold mbind at 1, js_mbind, js_bind. rewrite Htoast.
    unfold mbind, js_mbind, js_bind.
    rewrite (not_active_run i p1 h) by (by rewrite Hhearts).
    exact Hrun.
  - unfold toasts_of, p1. rewrite (showToast_run message message) by done.
    simpl. split; [|split; [done|]].
    + rewrite show_by_id_as_inserted, fmap_app. simpl. apply last_snoc.
    + exists h1. split; [|done]. apply list_lookup_insert_eq.
      by eapply lookup_lt_Some.
Qed.

(** On a heart that has no icon every toggle reply, good or bad, ends in a
    TypeError that nothing handles; the last toast inserted is the error
    toast, and no request is made. *)
Theorem toggle_reply_without_icon_throws (p : page) (i : nat) (h : heart)
    (o : fetch_outcome toggle_data) (now now' : N) :
  page_hearts p !! i = Some h →
  heart_icon h = None →
  ∃ p', toggleWishlist_reply i o now now' p = (Throw TypeError, p') ∧
        last (as_inserted <$> toasts_of p')
        = Some (Toast (Some now') "danger" "fa-exclamation-circle"
                      "Error updating wishlist" None) ∧
        page_requests p' = page_requests p.
Proof.
  intros Hi Hicon.
  (* the state in which the [catch] part starts, and the heart it finds *)
  assert (∃ e p1 h1,
    (data ← match o with
            | NetworkError => js_throw TypeError
            | Response ok body =>
                if negb ok then js_throw (Error "Network response was not ok")
                else match body with
                     | Some data => mret data
                     | None => js_throw SyntaxError
                     end
            end;
     if toggle_success data then
       on_heart i (updateWishlistHeart (toggle_in_wishlist data)) ;;
       showToast (toggle_message data)
                 (if toggle_in_wishlist data then "success" else "info")
                 5000 now
     else
       showToast (toggle_message data) "warning" 5000 now ;;
       b ← not_active i;
       on_heart i (updateWishlistHeart b)) p = (Throw e, p1) ∧
    page_hearts p1 !! i = Some h1 ∧ heart_icon h1 = None ∧
    page_requests p1 = page_requests p) as (e & p1 & h1 & Hthen & Hi1 & Hicon1 & Hreq1).
  { destruct o as [|[] [data|]];
      try (exists TypeError, p, h; by js_unfold);
      try (eexists _, p, h; by js_unfold).
    destruct (toggle_success data) eqn:Hsuccess.
    - destruct (on_heart_update_without_icon i (toggle_in_wishlist data) p h
                  Hi Hicon) as (h1 & Hrun & Hh1).
      eexists TypeError, _, h1. split.
      + js_unfold. simpl. rewrite Hsuccess, Hrun. reflexivity.
      + simpl. split; [|done].
        apply list_lookup_insert_eq. by eapply lookup_lt_Some.
    - destruct (toast_and_revert_throws p i h (toggle_message data)
                  "warning" now Hi Hicon) as (e & p1 & h1 & Hrun & ? & ? & ?).
      exists e, p1, h1. split; [|done].
      rewrite <- Hrun. js_unfold. simpl. rewrite Hsuccess. reflexivity. }
  set (p2 := Page (page_hearts p1) (page_toasts p1) (page_cookie p1)
                  (page_requests p1) (page_console p1 ++ [ErrorToggle e])
                  (page_log p1)).
  destruct (toast_and_revert_without_icon p2 i h1 "Error updating wishlist"
              "danger" now' eq_refl eq_refl Hi1 Hicon1)
    as (p' & Hrun & Hlast & Hreq & _).
  exists p'. split; [|split; [done|by rewrite Hreq]].
  unfold toggleWishlist_reply, js_catch. rewrite Hthen.
  unfold console_error. unfold mbind at 1, js_mbind, js_bind, js_modify.
  exact Hrun.
Qed.

Lemma heart_shows_icon b h : heart_shows b h → is_Some (heart_icon h).
Proof.
  unfold heart_shows, class_state, icon_has.
  destruct (heart_icon h); [by eauto|]. by destruct b.
Qed.

Lemma heart_shows_active b h : heart_shows b h → is_active h = b.
Proof. unfold heart_shows, class_state. by intros [= -> _ _]. Qed.

(** A failed toggle request runs the [catch] part from the state the reply
    found, with the error on the console. *)
Lemma toggleWishlist_reply_failed i o now now' p :
  toggle_failed o →
  ∃ e, toggleWishlist_reply i o now now' p
       = (showToast "Error updating wishlist" "danger" 5000 now' ;;
          b ← not_active i; on_heart i (updateWishlistHeart b))
           (Page (page_hearts p) (page_toasts p) (page_cookie p)
                 (page_requests p) (page_console p ++ [ErrorToggle e])
                 (page_log p)).
Proof.
  intros Hfailed. unfold toggleWishlist_reply, console_error.
  destruct o as [|[] [d|]]; simpl in Hfailed;
    try (destruct Hfailed; discriminate);
    eexists; js_unfold; reflexivity.
Qed.

(** Two failed toggle requests on one heart, handled one after the other,
    leave the heart showing the [active] state it had before the first: each
    failure negates what the heart shows, whatever the server holds. *)
Theorem toggle_reply_failure_twice (p : page) (i : nat) (h : heart)
    (o1 o2 : fetch_outcome toggle_data) (t1 t1' t2 t2' : N) :
  page_hearts p !! i = Some h →
  is_Some (heart_icon h) →
  toggle_failed o1 → toggle_failed o2 →
  ∃ p1 p2 h2,
    toggleWishlist_reply i o1 t1 t1' p = (Normal tt, p1) ∧
    toggleWishlist_reply i o2 t2 t2' p1 = (Normal tt, p2) ∧
    page_hearts p2 = <[i := h2]> (page_hearts p) ∧
    heart_shows (is_active h) h2 ∧
    length (toasts_of p2) = S (S (length (toasts_of p))).
Proof.
  intros Hi Hicon Hf1 Hf2.
  destruct (toggleWishlist_reply_failed i o1 t1 t1' p Hf1) as [e1 Hrun1].
  destruct (toast_and_revert
              (Page (page_hearts p) (page_toasts p) (page_cookie p)
                 (page_requests p) (page_console p ++ [ErrorToggle e1])
                 (page_log p))
              i h "Error updating wishlist" "danger" t1' eq_refl eq_refl
              Hi Hicon)
    as (p1 & Hp1 & ((h1 & Hhearts1 & Hshows1) & Htoasts1 & _) & _).
  rewrite Hp1 in Hrun1. simpl in Hhearts1.
  assert (page_hearts p1 !! i = Some h1) as Hi1.
  { rewrite Hhearts1. apply list_lookup_insert_eq. by eapply lookup_lt_Some. }
  destruct (toggleWishlist_reply_failed i o2 t2 t2' p1 Hf2) as [e2 Hrun2].
  destruct (toast_and_revert
              (Page (page_hearts p1) (page_toasts p1) (page_cookie p1)
                 (page_requests p1) (page_console p1 ++ [ErrorToggle e2])
                 (page_log p1))
              i h1 "Error updating wishlist" "danger" t2' eq_refl eq_refl Hi1
              (heart_shows_icon _ _ Hshows1))
    as (p2 & Hp2 & ((h2 & Hhearts2 & Hshows2) & Htoasts2 & _) & _).
  rewrite Hp2 in Hrun2. simpl in Hhearts2.
  exists p1, p2, h2. split; [done|]. split; [done|]. split; [|split].
  - by rewrite Hhearts2, Hhearts1, list_insert_insert_eq.
  - rewrite (heart_shows_active _ _ Hshows1), negb_involutive in Hshows2.
    done.
  - apply (f_equal length) in Htoasts1, Htoasts2.
    rewrite length_app, !length_fmap in Htoasts1, Htoasts2.
    unfold toasts_of in *. simpl in *. lia.
Qed.

(** ** The navbar: what the scroll listener leaves alone *)

Lemma filter_add_other (P : string → Prop) `{!∀ x, Decision (P x)} c cl :
  ¬ P c → filter P (classList.add c cl) = filter P cl.
Proof.
  intros Hc. unfold classList.add. destruct (classList.contains c cl); [done|].
  rewrite filter_app, filter_cons, filter_nil.
  destruct (decide (P c)); [done|]. by rewrite app_nil_r.
Qed.

Lemma filter_remove_other (P : string → Prop) `{!∀ x, Decision (P x)} c cl :
  ¬ P c → filter P (classList.remove c cl) = filter P cl.
Proof using Type.
  clear parsed_nodes selected_update.
  intros Hc. unfold classList.remove. rewrite list_filter_filter.
  apply list_filter_iff. intros x. split; [tauto|].
  intros Hx. split; [done|]. by intros ->.
Qed.

(** Whatever the offsets, the scroll listener returns and touches no class
    of the navbar but [navbar-hidden] and [navbar-scrolled]: the other
    classes stay, in their order, and so does the navbar's height. *)
Theorem scroll_listener_other_classes (pageYOffset documentElement_scrollTop : Q)
    (nb : navbar) (c : scroll_closure) :
  ∃ nb' c',
    scroll_listener pageYOffset documentElement_scrollTop (nb, c)
    = (Normal tt, (nb', c')) ∧
    filter (λ x, x ≠ "navbar-hidden" ∧ x ≠ "navbar-scrolled")
           (navbar_classes nb')
    = filter (λ x, x ≠ "navbar-hidden" ∧ x ≠ "navbar-scrolled")
             (navbar_classes nb) ∧
    offsetHeight nb' = offsetHeight nb.
Proof.
  unfold scroll_listener, navbar_classList. js_unfold. simpl.
  destruct (Qgtb _ (lastScrollTop c) && Qgtb _ (navbarHeight c)),
    (Qgtb _ 100); simpl;
    (eexists _, _; split; [reflexivity|]); simpl; (split; [|done]);
    rewrite ?filter_add_other, ?filter_remove_other by tauto;
    rewrite ?filter_add_other, ?filter_remove_other by tauto; done.
Qed.

(** ** The cookie reader: values without escapes *)

Lemma getCookie_jar_read jar name :
  Forall cookie_wf jar → 61%N ∉ name →
  getCookie (cookie_string jar) name = jar_read name jar.
Proof.
  intros Hwf Hname. unfold getCookie.
  destruct jar as [|nv jar]; [done|].
  rewrite bool_decide_eq_true_2.
  - apply getCookie_loop_jar; [done..|]. by apply js_split_cookie_string.
  - destruct nv as [n v], jar as [|[] ?]; cbn [cookie_string];
      by destruct n.
Qed.

Lemma elem_of_trimStart c s : c ∈ trimStart s → c ∈ s.
Proof.
  induction s as [|x s IH]; [done|]. simpl.
  destruct (isWhiteSpace x); [|done]. intros ?%IH. by right.
Qed.

Lemma elem_of_trimEnd c s : c ∈ trimEnd s → c ∈ s.
Proof.
  unfold trimEnd. rewrite elem_of_reverse. intros ?%elem_of_trimStart.
  by apply elem_of_reverse.
Qed.

(** A cookie whose value holds no percent sign is read back as it was
    stored, less the white space at its end, wherever it stands among the
    other cookies and whatever their values are.  (Names and values hold no
    semicolon; names hold no equals sign and do not start with white
    space.) *)
Theorem getCookie_plain_value (jar : list (jsstring * jsstring))
    (name v : jsstring) :
  Forall cookie_wf jar →
  61%N ∉ name →
  jar_lookup name jar = Some v →
  37%N ∉ v →
  getCookie (cookie_string jar) name = Normal (Some (trimEnd v)).
Proof.
  intros Hwf Hname Hlookup Hv.
  rewrite getCookie_jar_read by done. unfold jar_read.
  rewrite Hlookup, decodeURIComponent_plain; [done|].
  intros ?%elem_of_trimEnd. done.
Qed.

Lemma getCookie_plain_value_witness :
  getCookie
    (cookie_string [(str "discount", str "100%"); (str "csrftoken", str "Ab3x");
                    (str "lang", str "en")])
    (str "csrftoken")
  = Normal (Some (str "Ab3x")).
Proof.
  apply (getCookie_plain_value
           [(str "discount", str "100%"); (str "csrftoken", str "Ab3x");
            (str "lang", str "en")] (str "csrftoken") (str "Ab3x")).
  - refine (bool_decide_unpack _ _). vm_compute. exact I.
  - refine (bool_decide_unpack _ _). vm_compute. exact I.
  - reflexivity.
  - refine (bool_decide_unpack _ _). vm_compute. exact I.
Defined.

(** ** Toasts with the id of an older toast *)

Lemma show_by_id_first id d l1 t l2 :
  (∀ t', t' ∈ l1 → toast_id t' ≠ Some id) →
  toast_id t = Some id →
  show_by_id id d (l1 ++ t :: l2)
  = l1 ++ Toast (toast_id t) (toast_type t) (toast_icon t) (toast_message t)
                (Some d) :: l2.
Proof.
  intros Hl1 Ht. induction l1 as [|t0 l1 IH]; cbn [app show_by_id].
  - by rewrite bool_decide_eq_true_2.
  - rewrite bool_decide_eq_false_2 by (apply Hl1; by left).
    f_equal. apply IH. intros t' Ht'. apply Hl1. by right.
Qed.

(** When the container already holds a toast with the id that [showToast]
    makes from the clock, a toast of plain type and of a message without
    markup is still inserted, last, with the text of the message, but it is
    not shown: the widget is started, with the new delay, on the first older
    toast with that id, and every other element is exactly as before. *)
Theorem showToast_same_id (p : page) (message text type : string)
    (duration now : N) (l1 l2 : list toast) (t : toast) :
  message_text message = Some text →
  plain_type type = true →
  toasts_of p = l1 ++ t :: l2 →
  (∀ t', t' ∈ l1 → toast_id t' ≠ Some now) →
  toast_id t = Some now →
  showToast message type duration now p
  = (Normal tt,
     Page (page_hearts p)
          (Some (l1 ++ Toast (toast_id t) (toast_type t) (toast_icon t)
                             (toast_message t) (Some duration)
                    :: l2 ++ [Toast (Some now) type (getToastIcon type) text
                                    None]))
          (page_cookie p) (page_requests p) (page_console p) (page_log p)).
Proof.
  intros Htext Htype Hold Hl1 Ht.
  rewrite (showToast_run message text) by done. rewrite Hold.
  rewrite <- app_assoc. cbn [app].
  by rewrite (show_by_id_first now duration l1 t) by done.
Qed.

(** ** The sync reactions never fail and never speak to the user *)

(** Whatever comes back from the status check, and whatever the page holds
    (hearts without icon, codes that break the selector), the reactions
    return normally, so the promise of [checkWishlistStates] fulfils; they
    insert no toast, make no request and add no listener.  A transport
    failure or an unparsable body is written to the console, once, and
    changes no heart; [success: false] writes nothing. *)
Theorem checkWishlistStates_reply_silent (p : page)
    (o : fetch_outcome check_data) :
  ∃ p', checkWishlistStates_reply o p = (Normal tt, p') ∧
        page_toasts p' = page_toasts p ∧
        page_requests p' = page_requests p ∧
        page_cookie p' = page_cookie p ∧
        heart_listeners <$> page_hearts p' = heart_listeners <$> page_hearts p ∧
        match o with
        | NetworkError | Response _ None =>
            page_hearts p' = page_hearts p ∧
            ∃ e, page_console p' = page_console p ++ [ErrorCheckingWishlist e]
        | Response _ (Some data) =>
            check_success data = false →
            page_hearts p' = page_hearts p ∧ page_console p' = page_console p
        end.
Proof.
  unfold checkWishlistStates_reply, console_error, observe. js_unfold.
  destruct o as [|ok [data|]]; simpl;
    try (eexists; split; [reflexivity|]; simpl; by eauto 10).
  destruct (check_success data);
    [|eexists; split; [reflexivity|]; simpl; by eauto 10].
  destruct (forEach_status (wishlist_status data) p) as [[[]|e] p1] eqn:Hrun;
    apply forEach_status_restyled in Hrun as (?&?&?&?&?&?&?);
    (eexists; split; [reflexivity|]); simpl; repeat split; congruence.
Qed.

(** ** Wiring the click listeners *)

Lemma initializeWishlistHeart_run i p h :
  page_hearts p !! i = Some h →
  initializeWishlistHeart i p
  = (Normal tt,
     Page (<[i := Heart (heart_classes h) (heart_isbn h) (heart_icon h)
                        (S (heart_listeners h))]> (page_hearts p))
          (page_toasts p) (page_cookie p) (page_requests p) (page_console p)
          (page_log p ++ [ListenerAdded i])).
Proof.
  intros Hi. unfold initializeWishlistHeart, on_heart, observe. js_unfold.
  by rewrite Hi.
Qed.

(** The callback over the hearts [k, k + n): each gets one listener more. *)
Lemma forEach_heart_seq n k p :
  k + n ≤ length (page_hearts p) →
  ∃ p', forEach_heart (seq k n) p = (Normal tt, p') ∧
        ∀ j, (heart_listeners <$> page_hearts p') !! j
             = (if bool_decide (k ≤ j < k + n) then S else id)
                 <$> (heart_listeners <$> page_hearts p) !! j.
Proof.
  revert k p. induction n as [|n IH]; intros k p Hlen.
  - exists p. split; [done|]. intros j.
    rewrite bool_decide_eq_false_2 by lia. by rewrite option_fmap_id.
  - destruct (lookup_lt_is_Some_2 (page_hearts p) k) as [h Hk]; [lia|].
    cbn [seq forEach_heart]. unfold mbind at 1, js_mbind, js_bind.
    rewrite (initializeWishlistHeart_run k p h Hk).
    match goal with |- context [forEach_heart (seq (S k) n) ?q] =>
      destruct (IH (S k) q) as (p' & Hrun & Hj) end.
    { simpl. rewrite length_insert. lia. }
    exists p'. split; [done|]. intros j. rewrite Hj. simpl.
    rewrite list_fmap_insert. simpl.
    destruct (decide (j = k)) as [->|Hne].
    + rewrite list_lookup_insert_eq
        by (rewrite length_fmap; by eapply lookup_lt_Some).
      rewrite list_lookup_fmap, Hk. simpl.
      rewrite bool_decide_eq_false_2 by lia.
      by rewrite bool_decide_eq_true_2 by lia.
    + rewrite list_lookup_insert_ne by done.
      destruct (decide (S k ≤ j < S k + n)).
      * by rewrite !bool_decide_eq_true_2 by lia.
      * by rewrite !bool_decide_eq_false_2 by lia.
Qed.

Lemma forEach_heart_all p p0 :
  length (page_hearts p0) = length (page_hearts p) →
  Forall (λ h, heart_listeners h = 0) (page_hearts p) →
  Forall (λ h, heart_listeners h = 1)
         (page_hearts (forEach_heart (seq 0 (length (page_hearts p0))) p).2).
Proof.
  intros Hlen Hzero.
  destruct (forEach_heart_seq (length (page_hearts p0)) 0 p)
    as (p' & -> & Hj); [lia|]. simpl.
  apply (Forall_fmap heart_listeners (λ n, n = 1)), Forall_lookup.
  intros j x. rewrite Hj.
  apply (Forall_fmap heart_listeners (λ n, n = 0)) in Hzero.
  rewrite Forall_lookup in Hzero.
  destruct ((heart_listeners <$> page_hearts p) !! j) as [y|] eqn:Hy; [|done].
  rewrite (Hzero j y Hy).
  assert (j < length (page_hearts p)) as Hlt.
  { apply lookup_lt_Some in Hy. by rewrite length_fmap in Hy. }
  rewrite bool_decide_eq_true_2 by lia. by intros [= <-].
Qed.

Lemma quiet_length p p' :
  quiet p p' → length (page_hearts p') = length (page_hearts p).
Proof.
  intros [_ Hn]. apply (f_equal length) in Hn. by rewrite !length_fmap in Hn.
Qed.

Lemma quiet_listeners (n : nat) p p' :
  quiet p p' →
  Forall (λ h, heart_listeners h = n) (page_hearts p) →
  Forall (λ h, heart_listeners h = n) (page_hearts p').
Proof.
  intros [_ Hn] Hall.
  apply (Forall_fmap heart_listeners (λ m, m = n)). rewrite Hn.
  by apply Forall_fmap.
Qed.

Lemma checkWishlistStates_reply_quiet o p :
  length (page_hearts (checkWishlistStates_reply o p).2)
  = length (page_hearts p) ∧
  ∀ n, Forall (λ h, heart_listeners h = n) (page_hearts p) →
       Forall (λ h, heart_listeners h = n)
              (page_hearts (checkWishlistStates_reply o p).2).
Proof.
  destruct (checkWishlistStates_reply_frame o p)
    as (p' & -> & _ & _ & _ & Hn & _). simpl. split.
  - apply (f_equal length) in Hn. by rewrite !length_fmap in Hn.
  - intros n Hall. apply (Forall_fmap heart_listeners (λ m, m = n)).
    rewrite Hn. by apply Forall_fmap.
Qed.

Lemma checkWishlistStates_hearts p r p' :
  checkWishlistStates p = (r, p') → page_hearts p' = page_hearts p.
Proof.
  unfold checkWishlistStates, fetch, observe. js_unfold.
  case_bool_decide; [by intros [= <- <-]|].
  by destruct (getCookie _ _); intros [= <- <-].
Qed.

Lemma wired_step w e : wired w → wired (step w e).
Proof.
  unfold wired. intros Hw.
  destruct e as [|o|i|k o now now'|y dy]; simpl.
  - destruct (w_loaded w) eqn:Hloaded; [by rewrite Hloaded|].
    destruct (w_then w); [by destruct Hw as [[=] _]|].
    unfold initializeWishlistHearts. js_unfold.
    destruct (checkWishlistStates (w_page w)) as [[[]|e] p1] eqn:Hsync;
      pose proof (checkWishlistStates_hearts _ _ _ Hsync) as Hhearts; simpl.
    + right. apply forEach_heart_all; by rewrite Hhearts.
    + by rewrite Hhearts.
    + left. by rewrite Hhearts.
  - destruct (w_then w) as [wishlistHearts|] eqn:Hthen;
      [|by rewrite Hthen].
    destruct Hw as (-> & -> & Hzero). simpl. right.
    destruct (checkWishlistStates_reply_quiet o (w_page w)) as [Hlen Hall].
    apply forEach_heart_all; [done|]. by apply Hall.
  - destruct (page_hearts (w_page w) !! i) as [h|]; [|done].
    pose proof (quiet_clicks (heart_listeners h) i (w_page w) (w_toggles w))
      as Hquiet.
    destruct (Nat.iter _ _ _) as [p' toggles]. simpl in *.
    pose proof (quiet_length _ _ Hquiet) as Hlen.
    destruct (w_then w); [|destruct (w_loaded w)].
    + destruct Hw as (? & ? & ?). rewrite Hlen.
      eauto using quiet_listeners.
    + destruct Hw; eauto using quiet_listeners.
    + eauto using quiet_listeners.
  - destruct (w_toggles w !! k) as [heartElement|]; [|done]. simpl.
    assert (quiet (w_page w)
              (toggleWishlist_reply heartElement o now now' (w_page w)).2)
      as Hquiet
      by (eapply quietly_toggleWishlist_reply; apply surjective_pairing).
    pose proof (quiet_length _ _ Hquiet) as Hlen.
    destruct (w_then w); [|destruct (w_loaded w)].
    + destruct Hw as (? & ? & ?). rewrite Hlen.
      eauto using quiet_listeners.
    + destruct Hw; eauto using quiet_listeners.
    + eauto using quiet_listeners.
  - by destruct (w_scroll w).
Qed.

Lemma wired_run es w : wired w → wired (run w es).
Proof.
  revert w. induction es as [|e es IH]; intros w Hw; [done|].
  simpl. by apply IH, wired_step.
Qed.

(** In every run of the page no heart ever holds more than one click
    listener of the script, so a click runs the toggle at most once. *)
Theorem listeners_at_most_one (hs : list heart)
    (toasts : option (list toast)) (cookie : jsstring) (nb : navbar)
    (es : list event) :
  Forall (λ h, heart_listeners h ≤ 1)
         (page_hearts (w_page (run (start hs toasts cookie nb) es))).
Proof.
  assert (wired (run (start hs toasts cookie nb) es)) as Hw.
  { apply wired_run. unfold wired, start, rendered. simpl.
    by apply Forall_fmap, Forall_forall. }
  unfold wired in Hw.
  destruct (w_then _); [|destruct (w_loaded _)].
  - destruct Hw as (_ & _ & Hzero).
    eapply Forall_impl; [done|]. simpl. lia.
  - destruct Hw as [Hall|Hall];
      (eapply Forall_impl; [done|]); simpl; lia.
  - eapply Forall_impl; [done|]. simpl. lia.
Qed.

Lemma listening_step w e : listening w → listening (step w e).
Proof.
  intros (Hloaded & Hthen & Hall). unfold listening.
  destruct e as [|o|i|k o now now'|y dy]; simpl.
  - by rewrite Hloaded.
  - by rewrite Hthen.
  - destruct (page_hearts (w_page w) !! i) as [h|]; [|done].
    pose proof (quiet_clicks (heart_listeners h) i (w_page w) (w_toggles w))
      as Hquiet.
    destruct (Nat.iter _ _ _) as [p' toggles]. simpl in *.
    eauto using quiet_listeners.
  - destruct (w_toggles w !! k) as [heartElement|]; [|done]. simpl.
    split; [done|]. split; [done|].
    eapply quiet_listeners; [|done].
    eapply quietly_toggleWishlist_reply. apply surjective_pairing.
  - by destruct (w_scroll w).
Qed.

Lemma listening_run es w : listening w → listening (run w es).
Proof.
  revert w. induction es as [|e es IH]; intros w Hw; [done|].
  simpl. by apply IH, listening_step.
Qed.

Lemma forEach_heart_length wishlistHearts p :
  length (page_hearts (forEach_heart wishlistHearts p).2)
  = length (page_hearts p).
Proof.
  revert p. induction wishlistHearts as [|i rest IH]; intros p; [done|].
  cbn [forEach_heart]. unfold initializeWishlistHeart, on_heart, observe.
  js_unfold. destruct (page_hearts p !! i) as [h|]; simpl; [|done].
  rewrite IH. simpl. by rewrite length_insert.
Qed.

Lemma step_length w e :
  length (page_hearts (w_page (step w e))) = length (page_hearts (w_page w)).
Proof.
  destruct e as [|o|i|k o now now'|y dy]; simpl.
  - destruct (w_loaded w); [done|].
    unfold initializeWishlistHearts. js_unfold.
    destruct (checkWishlistStates (w_page w)) as [[[]|e] p1] eqn:Hsync;
      pose proof (checkWishlistStates_hearts _ _ _ Hsync) as Hhearts; simpl;
      rewrite ?forEach_heart_length; by rewrite Hhearts.
  - destruct (w_then w); [|done]. simpl. rewrite forEach_heart_length.
    apply checkWishlistStates_reply_quiet.
  - destruct (page_hearts (w_page w) !! i) as [h|]; [|done].
    pose proof (quiet_clicks (heart_listeners h) i (w_page w) (w_toggles w))
      as Hquiet.
    destruct (Nat.iter _ _ _) as [p' toggles]. simpl in *.
    by apply quiet_length.
  - destruct (w_toggles w !! k) as [heartElement|]; [|done]. simpl.
    apply quiet_length. eapply quietly_toggleWishlist_reply.
    apply surjective_pairing.
  - by destruct (w_scroll w).
Qed.

Lemma run_length es w :
  length (page_hearts (w_page (run w es))) = length (page_hearts (w_page w)).
Proof.
  revert w. induction es as [|e es IH]; intros w; [done|].
  simpl. by rewrite IH, step_length.
Qed.

Lemma step_load w r p1 :
  w_loaded w = false →
  checkWishlistStates (w_page w) = (r, p1) →
  step w DOMContentLoaded
  = match r with
    | Normal Fulfilled =>
        World (forEach_heart (seq 0 (length (page_hearts (w_page w)))) p1).2
              (w_navbar w) true
              (Some (ScrollClosure 0 (offsetHeight (w_navbar w))))
              None (w_toggles w)
    | Normal Pending =>
        World p1 (w_navbar w) true
              (Some (ScrollClosure 0 (offsetHeight (w_navbar w))))
              (Some (seq 0 (length (page_hearts (w_page w))))) (w_toggles w)
    | Throw _ => World p1 (w_navbar w) true None None (w_toggles w)
    end.
Proof.
  intros Hloaded Hsync. unfold step. rewrite Hloaded.
  unfold initializeWishlistHearts. js_unfold. rewrite Hsync.
  by destruct r as [[]|].
Qed.

(** Once the page has loaded and the status check has come back, whatever
    it brought (failures included), every heart has exactly one click
    listener, and keeps exactly one through everything that follows.  The
    CSRF cookie must be readable, unless no heart carries a code and no
    request is needed. *)
Theorem listeners_in_place_after_sync (hs : list heart)
    (toasts : option (list toast)) (cookie : jsstring) (nb : navbar)
    (o : fetch_outcome check_data) (es : list event) :
  bookIsbns (rendered hs toasts cookie) = [] ∨
  (∃ csrftoken, getCookie cookie (str "csrftoken") = Normal csrftoken) →
  let p := w_page (run (start hs toasts cookie nb)
                       (DOMContentLoaded :: SyncReply o :: es)) in
  Forall (λ h, heart_listeners h = 1) (page_hearts p) ∧
  length (page_hearts p) = length hs.
Proof.
  intros Hcookie p. split.
  2: { unfold p. rewrite run_length. unfold start, rendered. simpl.
       by rewrite length_fmap. }
  assert (Forall (λ h, heart_listeners h = 0)
            (page_hearts (rendered hs toasts cookie))) as Hzero
    by (by apply Forall_fmap, Forall_forall).
  assert (listening (run (start hs toasts cookie nb)
                         [DOMContentLoaded; SyncReply o])) as Hlistening.
  { unfold run, listening. cbn [foldl].
    destruct (checkWishlistStates (rendered hs toasts cookie))
      as [r p1] eqn:Hsync.
    pose proof (checkWishlistStates_hearts _ _ _ Hsync) as Hhearts.
    rewrite (step_load (start hs toasts cookie nb) r p1 eq_refl Hsync).
    destruct r as [[]|e]; cbn [start w_page w_navbar w_toggles].
    - (* fulfilled at once: the reply finds nothing waiting *)
      cbn [step w_then w_loaded w_page]. split_and!; [done..|].
      apply (forEach_heart_all p1 (rendered hs toasts cookie));
        by rewrite Hhearts.
    - (* the request is out: the reply sets the callback off *)
      cbn [step w_then w_loaded w_page].
      destruct (checkWishlistStates_reply_quiet o p1) as [Hl Hall].
      split_and!; [done..|].
      apply (forEach_heart_all _ (rendered hs toasts cookie));
        [by rewrite Hl, Hhearts|].
      apply Hall. by rewrite Hhearts.
    - (* the cookie reader threw: excluded by the hypothesis *)
      exfalso. revert Hsync.
      unfold checkWishlistStates, fetch, observe. js_unfold.
      destruct Hcookie as [Hnone|[csrftoken Hcsrf]].
      + by rewrite Hnone.
      + case_bool_decide; [done|].
        change (page_cookie (rendered hs toasts cookie)) with cookie.
        by rewrite Hcsrf. }
  change (run (start hs toasts cookie nb)
              (DOMContentLoaded :: SyncReply o :: es))
    with (run (run (start hs toasts cookie nb)
                   [DOMContentLoaded; SyncReply o]) es) in p.
  by pose proof (listening_run es _ Hlistening) as (_ & _ & Hall).
Qed.

(** As long as the sync has not resolved, a click on a heart is not seen by
    the script at all: nothing is sent and nothing changes. *)
Theorem click_before_sync_ignored (hs : list heart)
    (toasts : option (list toast)) (cookie : jsstring) (nb : navbar)
    (es : list event) (i : nat) :
  page_log (w_page (run (start hs toasts cookie nb) es)) = [] →
  step (run (start hs toasts cookie nb) es) (Click i)
  = run (start hs toasts cookie nb) es.
Proof.
  intros Hlog.
  assert (sync_first (w_page (run (start hs toasts cookie nb) es))) as Hinv.
  { apply sync_first_run. unfold sync_first, start, rendered. simpl.
    by apply Forall_fmap, Forall_forall. }
  unfold sync_first in Hinv. rewrite Hlog in Hinv.
  destruct (run (start hs toasts cookie nb) es) as [p n l s t g]. simpl in *.
  destruct (page_hearts p !! i) as [h|] eqn:Hi; [|done].
  rewrite Forall_lookup in Hinv. by rewrite (Hinv i h Hi).
Qed.

End Browser.

(** * The script on concrete pages

    On the pages below every type, message and code is one that the
    embedding reads itself, so the browser's parsers are never asked and
    the stand-ins take their place. *)

(** C1, as worded, fails on a message with a character reference: the toast
    is built from the HTML in which the message stands, and its text is the
    message as the parser reads it, [Tom & Jerry added]. *)
Lemma toast_text_is_parsed_message :
  ¬ toast_carries_message no_nodes sample_page 0
      (ToggleData true true "Tom &amp; Jerry added") 1000 1001.
Proof.
  intros (p' & Hrun & Htoasts).
  vm_compute in Hrun. injection Hrun as <-.
  vm_compute in Htoasts. discriminate.
Qed.

(** C2, as worded, fails in the same way on a refusal: the toast of
    [Limit &lt; 5 reached] reads [Limit < 5 reached]. *)
Lemma refusal_text_is_parsed_message :
  ¬ toast_carries_message no_nodes sample_page 1
      (ToggleData false false "Limit &lt; 5 reached") 1000 1001.
Proof.
  intros (p' & Hrun & Htoasts).
  vm_compute in Hrun. injection Hrun as <-.
  vm_compute in Htoasts. discriminate.
Qed.

Lemma toggle_reply_success_witness :
  ∃ p', toggleWishlist_reply no_nodes 0
          (Response true (Some (ToggleData true true "Added"))) 1000 1001
          sample_page
        = (Normal tt, p') ∧
        toggle_result sample_page p' 0 true "Added" "success" 1000.
Proof.
  apply (toggle_reply_success no_nodes sample_page 0
           (Heart ["wishlist-heart"] (Some "123")
                  (Some ["far"; "fa-heart"; "text-muted"]) 1)
           (ToggleData true true "Added") 1000 1001).
  - reflexivity.
  - simpl. eauto.
  - reflexivity.
  - reflexivity.
Defined.

Lemma toggle_reply_refused_witness :
  ∃ p', toggleWishlist_reply no_nodes 1
          (Response true (Some (ToggleData false false "Limit reached")))
          1000 1001 sample_page
        = (Normal tt, p') ∧
        toggle_result sample_page p' 1 (negb true) "Limit reached" "warning"
          1000.
Proof.
  apply (toggle_reply_refused no_nodes sample_page 1
           (Heart ["wishlist-heart"; "active"] (Some "456")
                  (Some ["fas"; "fa-heart"; "text-danger"]) 1)
           (ToggleData false false "Limit reached") 1000 1001).
  - reflexivity.
  - simpl. eauto.
  - reflexivity.
  - reflexivity.
Defined.

Lemma toggle_reply_failure_witness :
  ∃ p', toggleWishlist_reply no_nodes 1 (Response false None) 1000 1001 sample_page
        = (Normal tt, p') ∧
        toggle_result sample_page p' 1 (negb true) "Error updating wishlist"
          "danger" 1001.
Proof.
  apply (toggle_reply_failure no_nodes sample_page 1
           (Heart ["wishlist-heart"; "active"] (Some "456")
                  (Some ["fas"; "fa-heart"; "text-danger"]) 1)
           (Response false None) 1000 1001).
  - reflexivity.
  - simpl. eauto.
  - simpl. by left.
Defined.

Lemma checkWishlistStates_request_witness :
  (∃ p', checkWishlistStates (Page [] None [] [] [] [])
         = (Normal Fulfilled, p') ∧
         page_requests p' = [] ∧
         page_log p' = [SyncResolved]) ∧
  (∃ p', checkWishlistStates sample_page = (Normal Pending, p') ∧
         page_requests p'
         = [Request "/wishlist/check-status/" "POST"
                    [("Content-Type", "application/json")]
                    (Some (str "Ab3/x")) (Some ["123"; "456"])] ∧
         ∀ o, page_requests (checkWishlistStates_reply no_update o p').2
              = page_requests p') ∧
  checkWishlistStates (Page sample_hearts None (str "csrftoken=%") [] [] [])
  = (Throw URIError, Page sample_hearts None (str "csrftoken=%") [] [] []).
Proof.
  split; [|split].
  - apply (checkWishlistStates_request no_update (Page [] None [] [] [] [])).
    reflexivity.
  - apply (checkWishlistStates_request no_update sample_page).
    + discriminate.
    + vm_compute. reflexivity.
  - apply (checkWishlistStates_request no_update
             (Page sample_hearts None (str "csrftoken=%") [] [] [])).
    + discriminate.
    + vm_compute. reflexivity.
Defined.

(** C4: on a page where two hearts carry the code 123 and the reply names
    123 as in the wishlist, the sync reactions return with the first heart
    active and the second exactly as rendered, so not every heart whose
    code a status names ends up showing that status. *)
Theorem sync_skips_second_heart :
  checkWishlistStates_reply no_update twin_reply twin_page
  = (Normal tt,
     Page [Heart ["wishlist-heart"; "active"] (Some "123")
                 (Some ["far"; "text-danger"]) 0;
           Heart ["wishlist-heart"] (Some "123")
                 (Some ["far"; "text-muted"]) 0]
          None (str "csrftoken=abc") [] [] [SyncResolved]) ∧
  ¬ sync_sets_all_named no_update twin_page twin_reply.
Proof.
  split; [vm_compute; reflexivity|].
  intros Hclaim.
  destruct (Hclaim (checkWishlistStates_reply no_update twin_reply twin_page).2
              1
              (Heart ["wishlist-heart"] (Some "123")
                     (Some ["far"; "text-muted"]) 0)
              (Status "123" true))
    as (h' & Hh' & Hactive).
  - vm_compute. reflexivity.
  - reflexivity.
  - simpl. by left.
  - reflexivity.
  - vm_compute in Hh'. injection Hh' as <-. vm_compute in Hactive.
    discriminate.
Qed.

Lemma checkWishlistStates_reply_hearts_witness :
  ∃ p', checkWishlistStates_reply no_update twin_reply twin_page = (Normal tt, p') ∧
        length (page_hearts p') = length (page_hearts twin_page) ∧
        (∀ j h, page_hearts twin_page !! j = Some h →
           ∃ h', page_hearts p' !! j = Some h' ∧
                 synced (targeted (page_hearts twin_page) j h
                           (statuses_of twin_reply)) h h') ∧
        (statuses_of twin_reply = [] → page_hearts p' = page_hearts twin_page).
Proof.
  apply (checkWishlistStates_reply_hearts no_update twin_page twin_reply).
  - intros [|[|j]] h st; simpl; intros [= <-]; simpl; eauto.
  - intros st [->|[]%elem_of_nil]%elem_of_cons. reflexivity.
Defined.

(** The sync reply of the specification's example: the heart of book 123
    becomes active with the alert tone, the other heart stays as rendered. *)
Example sync_reply_sets_named_heart :
  page_hearts
    (checkWishlistStates_reply no_update
       (Response true (Some (CheckData true [Status "123" true])))
       sample_page).2
  = [Heart ["wishlist-heart"; "active"] (Some "123")
           (Some ["far"; "fa-heart"; "text-danger"]) 1;
     Heart ["wishlist-heart"; "active"] (Some "456")
           (Some ["fas"; "fa-heart"; "text-danger"]) 1].
Proof. vm_compute. reflexivity. Qed.

(** From load to the first listeners: nothing is attached while the request
    is out, and a failed request attaches the listeners all the same. *)
Example run_while_sync_pending :
  let w := run no_nodes no_update (start sample_hearts None (str "csrftoken=abc")
                      (Navbar ["navbar"] 56))
               [DOMContentLoaded; Click 0] in
  page_log (w_page w) = [] ∧
  heart_listeners <$> page_hearts (w_page w) = [0; 0] ∧
  req_url <$> page_requests (w_page w) = ["/wishlist/check-status/"].
Proof. vm_compute. done. Qed.

Example run_after_failed_sync :
  let w := run no_nodes no_update (start sample_hearts None (str "csrftoken=abc")
                      (Navbar ["navbar"] 56))
               [DOMContentLoaded; SyncReply NetworkError; Click 1] in
  page_log (w_page w) = [SyncResolved; ListenerAdded 0; ListenerAdded 1] ∧
  heart_listeners <$> page_hearts (w_page w) = [1; 1] ∧
  req_url <$> page_requests (w_page w)
  = ["/wishlist/check-status/"; "/wishlist/toggle-ajax/456/"] ∧
  w_toggles w = [1].
Proof. vm_compute. done. Qed.

(** Without book codes the promise is fulfilled at once and the listeners
    are attached in the same turn, with no request. *)
Example run_without_codes :
  let w := run no_nodes no_update (start [Heart ["wishlist-heart"] None (Some ["far"]) 0] None []
                      (Navbar ["navbar"] 56))
               [DOMContentLoaded] in
  page_log (w_page w) = [SyncResolved; ListenerAdded 0] ∧
  page_requests (w_page w) = [].
Proof. vm_compute. done. Qed.

(** A click, then the reply of the specification's example: the heart ends
    active and one success toast says what the server said. *)
Example run_click_then_added :
  let w := run no_nodes no_update (start sample_hearts None (str "csrftoken=abc")
                      (Navbar ["navbar"] 56))
               [DOMContentLoaded; SyncReply (Response true None); Click 0;
                ToggleReply 0
                  (Response true (Some (ToggleData true true "Added")))
                  1000 1000] in
  (is_active <$> page_hearts (w_page w)) = [true; true] ∧
  page_toasts (w_page w)
  = Some [Toast (Some 1000%N) "success" "fa-check-circle" "Added"
                (Some 5000%N)] ∧
  w_toggles w = [].
Proof. vm_compute. done. Qed.

(** Why the theorems ask for the icon: on a heart without one the [catch]
    part itself fails, and its exception is left unhandled. *)
Example toggle_reply_without_icon :
  (toggleWishlist_reply no_nodes 0 NetworkError 1000 1001
     (Page [Heart ["wishlist-heart"] (Some "123") None 1] None [] [] [] [])).1
  = Throw TypeError.
Proof. vm_compute. reflexivity. Qed.

(** Two toasts in one millisecond get the same id, and the widget is started
    on the older one a second time: the newer one is inserted and not
    shown. *)
Example showToast_same_millisecond :
  page_toasts
    ((showToast no_nodes "Added" "success" 5000 1000 ;;
      showToast no_nodes "Removed" "info" 5000 1000)
       (Page [] None [] [] [] [])).2
  = Some [Toast (Some 1000%N) "success" "fa-check-circle" "Added"
                (Some 5000%N);
          Toast (Some 1000%N) "info" "fa-info-circle" "Removed" None].
Proof. vm_compute. reflexivity. Qed.

(** A CSRF cookie that does not decode stops the load handler at its first
    call: no request, no listener, and no scroll listener either. *)
Example run_with_malformed_token :
  let w := run no_nodes no_update (start sample_hearts None (str "csrftoken=%")
                      (Navbar ["navbar"] 56))
               [DOMContentLoaded; Scroll 300 300; Click 0] in
  page_requests (w_page w) = [] ∧
  heart_listeners <$> page_hearts (w_page w) = [0; 0] ∧
  w_scroll w = None ∧
  navbar_classes (w_navbar w) = ["navbar"].
Proof. vm_compute. done. Qed.

(** Scrolling down past the navbar hides it, scrolling back up shows it
    again, and the scrolled class follows the offset alone. *)
Example run_scroll_down_then_up :
  let w := run no_nodes no_update (start [] None [] (Navbar ["navbar"] 56))
               [DOMContentLoaded; Scroll 300 300] in
  let w' := step no_nodes no_update w (Scroll 120 120) in
  navbar_classes (w_navbar w) = ["navbar"; "navbar-hidden"; "navbar-scrolled"] ∧
  navbar_classes (w_navbar w') = ["navbar"; "navbar-scrolled"] ∧
  navbar_classes (w_navbar (step no_nodes no_update w' (Scroll 40 40))) = ["navbar"].
Proof. vm_compute. done. Qed.

Lemma toggle_reply_without_icon_throws_witness :
  ∃ p', toggleWishlist_reply no_nodes 0
          (Response true (Some (ToggleData true true "Added"))) 1000 1001
          (Page [Heart ["wishlist-heart"] (Some "123") None 1] None [] [] [] [])
        = (Throw TypeError, p') ∧
        last (as_inserted <$> toasts_of p')
        = Some (Toast (Some 1001%N) "danger" "fa-exclamation-circle"
                      "Error updating wishlist" None) ∧
        page_requests p' = [].
Proof.
  apply (toggle_reply_without_icon_throws no_nodes
           (Page [Heart ["wishlist-heart"] (Some "123") None 1] None [] [] [] [])
           0 (Heart ["wishlist-heart"] (Some "123") None 1)
           (Response true (Some (ToggleData true true "Added"))) 1000 1001);
    reflexivity.
Defined.

Lemma toggle_reply_failure_twice_witness :
  ∃ p1 p2 h2,
    toggleWishlist_reply no_nodes 1 NetworkError 1000 1000 sample_page
    = (Normal tt, p1) ∧
    toggleWishlist_reply no_nodes 1 (Response false None) 2000 2000 p1
    = (Normal tt, p2) ∧
    page_hearts p2 = <[1 := h2]> (page_hearts sample_page) ∧
    heart_shows true h2 ∧
    length (toasts_of p2) = 2.
Proof.
  apply (toggle_reply_failure_twice no_nodes sample_page 1
           (Heart ["wishlist-heart"; "active"] (Some "456")
                  (Some ["fas"; "fa-heart"; "text-danger"]) 1)
           NetworkError (Response false None) 1000 1000 2000 2000).
  - reflexivity.
  - simpl. eauto.
  - exact I.
  - simpl. by left.
Defined.

Lemma showToast_same_id_witness :
  showToast no_nodes "Removed" "info" 5000 1000
    (Page [] (Some [Toast (Some 900%N) "info" "fa-info-circle" "Earlier"
                          (Some 5000%N);
                    Toast (Some 1000%N) "success" "fa-check-circle" "Added"
                          (Some 3000%N);
                    Toast (Some 1000%N) "info" "fa-info-circle" "Twin" None])
          [] [] [] [])
  = (Normal tt,
     Page [] (Some ([Toast (Some 900%N) "info" "fa-info-circle" "Earlier"
                           (Some 5000%N)]
                    ++ Toast (Some 1000%N) "success" "fa-check-circle" "Added"
                             (Some 5000%N)
                       :: [Toast (Some 1000%N) "info" "fa-info-circle" "Twin"
                                 None]
                          ++ [Toast (Some 1000%N) "info" (getToastIcon "info")
                                    "Removed" None]))
          [] [] [] []).
Proof.
  apply (showToast_same_id no_nodes
           (Page [] (Some [Toast (Some 900%N) "info" "fa-info-circle"
                                 "Earlier" (Some 5000%N);
                           Toast (Some 1000%N) "success" "fa-check-circle"
                                 "Added" (Some 3000%N);
                           Toast (Some 1000%N) "info" "fa-info-circle" "Twin"
                                 None])
                 [] [] [] [])
           "Removed" "Removed" "info" 5000 1000
           [Toast (Some 900%N) "info" "fa-info-circle" "Earlier"
                  (Some 5000%N)]
           [Toast (Some 1000%N) "info" "fa-info-circle" "Twin" None]
           (Toast (Some 1000%N) "success" "fa-check-circle" "Added"
                  (Some 3000%N))).
  - reflexivity.
  - reflexivity.
  - reflexivity.
  - intros t' [->|[]%elem_of_nil]%elem_of_cons. discriminate.
  - reflexivity.
Defined.

Lemma listeners_in_place_after_sync_witness :
  let p := w_page (run no_nodes no_update (start sample_hearts None (str "csrftoken=abc")
                              (Navbar ["navbar"] 56))
                       [DOMContentLoaded; SyncReply NetworkError; Click 0;
                        ToggleReply 0 (Response false None) 1000 1000]) in
  Forall (λ h, heart_listeners h = 1) (page_hearts p) ∧
  length (page_hearts p) = length sample_hearts.
Proof.
  apply (listeners_in_place_after_sync no_nodes no_update sample_hearts None
           (str "csrftoken=abc") (Navbar ["navbar"] 56) NetworkError
           [Click 0; ToggleReply 0 (Response false None) 1000 1000]).
  right. exists (Some (str "abc")). vm_compute. reflexivity.
Defined.

Lemma click_before_sync_ignored_witness :
  step no_nodes no_update (run no_nodes no_update (start sample_hearts None (str "csrftoken=abc")
                   (Navbar ["navbar"] 56)) [DOMContentLoaded]) (Click 0)
  = run no_nodes no_update (start sample_hearts None (str "csrftoken=abc")
               (Navbar ["navbar"] 56)) [DOMContentLoaded].
Proof.
  apply (click_before_sync_ignored no_nodes no_update sample_hearts None (str "csrftoken=abc")
           (Navbar ["navbar"] 56) [DOMContentLoaded] 0).
  vm_compute. reflexivity.
Defined.
